(** * Bioactivity screening app (app.py): the fingerprint pipeline

    A shallow embedding of the Streamlit script [app.py]: the Morgan
    fingerprint encoder, the pandas tables it builds, the selection of
    the reduced feature columns, the call of the trained model and the
    result table offered for download.

    RDKit, the trained model and the list of reduced columns are not
    code of the script: they are the variables of the section below.
    Every call to them and to Streamlit is recorded in a trace, so that
    what the script did, and did not do, can be stated.  The page
    set-up, the sidebar, the titles (lines 10-78) and the spinner of
    line 120 show the same on every run and are left out; plotly is
    taken to draw whatever table it is given. *)

From Stdlib Require Import String Ascii DecimalString DecimalNat.
From Stdlib Require Import ZArith Lia Bool PeanoNat List.
Import ListNotations.
Open Scope string_scope.
Open Scope list_scope.

Set Implicit Arguments.

(** ** Python values held in table cells *)

(** An IEEE double as data.  The script performs no arithmetic on
    floats; pandas only asks whether one is NaN. *)
Inductive float64 : Type :=
| NaN
| Inf (negative : bool)
| Finite (mantissa exponent : Z).

(** What a cell of a table can hold: what [pd.read_csv] infers (text,
    integers, floats, NaN for an empty cell) and the lists the script
    stores itself in the [Fingerprint] column. *)
Inductive pyval : Type :=
| PStr (s : string)
| PInt (z : Z)
| PFloat (x : float64)
| PList (l : list Z).

(** [pd.isna] on one cell. *)
Definition isna (v : pyval) : bool :=
  match v with
  | PFloat NaN => true
  | _ => false
  end.

(** ** Tables *)

Definition Series := list pyval.

(** A [DataFrame]: the length of its index and its columns, in column
    order.  The index itself is not modelled: the script only ever
    assigns values by position. *)
Record DataFrame : Type := {
  index_len : nat;
  cols : list (string * Series)
}.

Definition columns (df : DataFrame) : list string := map fst (cols df).

(** What [pd.read_csv] returns: unique column names (it renames
    duplicates) and one cell per row in every column. *)
Definition wf (df : DataFrame) : Prop :=
  NoDup (columns df) /\
  Forall (fun c => length (snd c) = index_len df) (cols df).

(** [df.empty]: some axis has length zero. *)
Definition empty (df : DataFrame) : bool :=
  (length (cols df) =? 0)%nat || (index_len df =? 0)%nat.

(** ** Exceptions *)

Inductive exn : Type :=
| KeyError (missing : string)
| TypeError (arg : pyval)
| ValueError (expected got : nat)
| ModelError (msg : string).

(** ** What a run does: calls to Streamlit, RDKit and the model *)

(** The text of [st.error]: a literal, or the f-string of the handler
    of line 159 around the exception it caught. *)
Inductive message : Type :=
| Literal (s : string)
| Formatted (prefix : string) (e : exn).

(** The records of a CSV file: [to_csv(index=False)] writes the header
    and one record per row, no index column. *)
Record csv_file : Type := {
  csv_header : list string;
  csv_records : list (list pyval)
}.

Inductive event : Type :=
| st_success (msg : string)
| st_error (msg : message)
| st_write (msg : string)
| st_dataframe (df : DataFrame)
| st_plotly_chart (data : DataFrame) (x : string)
| st_download_button (label : string) (data : csv_file)
                     (file_name mime : string)
| MolFromSmiles_call (arg : pyval)
| predict_call (X : DataFrame).

(** ** The monad of the script: a trace of events, and an exception
    that stops the block *)

Definition M (A : Type) : Type := list event * (exn + A).

Definition ret {A} (a : A) : M A := ([], inr a).

Definition raise {A} (e : exn) : M A := ([], inl e).

Definition emit (ev : event) : M unit := ([ev], inr tt).

Definition bind {A B} (m : M A) (f : A -> M B) : M B :=
  match m with
  | (t, inl e) => (t, inl e)
  | (t, inr a) => let '(t', r) := f a in (t ++ t', r)
  end.

Notation "x <- c1 ;; c2" := (bind c1 (fun x => c2))
  (at level 61, c1 at next level, right associativity).
Notation "c1 ;; c2" := (bind c1 (fun _ => c2))
  (at level 61, right associativity).

(** The events [t], then [m]. *)
Definition prepend {A} (t : list event) (m : M A) : M A :=
  (t ++ fst m, snd m).

Definition trace {A} (m : M A) : list event := fst m.
Definition outcome {A} (m : M A) : exn + A := snd m.

(** [try: body  except Exception as e: handler e]. *)
Definition try_except {A} (body : M A) (handler : exn -> M A) : M A :=
  match body with
  | (t, inl e) => let '(t', r) := handler e in (t ++ t', r)
  | (t, inr a) => (t, inr a)
  end.

(** [Series.apply(f)]: [f] on each cell in turn, up to the first
    exception. *)
Fixpoint apply {A} (f : pyval -> M A) (s : Series) : M (list A) :=
  match s with
  | [] => ret []
  | v :: s' =>
      a <- f v ;;
      l <- apply f s' ;;
      ret (a :: l)
  end.

Definition lift {A} (r : exn + A) : M A := ([], r).

(** ** The pandas operations the script uses *)

Definition NA : pyval := PFloat NaN.

Definition has_label (name : string) (c : string * Series) : bool :=
  String.eqb (fst c) name.

(** [df[name]]: the column of that label. *)
Definition getitem (df : DataFrame) (name : string) : exn + Series :=
  match find (has_label name) (cols df) with
  | Some c => inr (snd c)
  | None => inl (KeyError name)
  end.

(** The columns of [df] labelled [name], in column order. *)
Definition labelled (df : DataFrame) (name : string)
  : list (string * Series) :=
  filter (has_label name) (cols df).

(** [df[keys]] with a list of labels: for each key in turn the columns
    of that label; a key that labels no column is a [KeyError]. *)
Fixpoint getitem_cols (df : DataFrame) (keys : list string)
  : exn + list (string * Series) :=
  match keys with
  | [] => inr []
  | k :: keys' =>
      match labelled df k with
      | [] => inl (KeyError k)
      | cs =>
          match getitem_cols df keys' with
          | inl e => inl e
          | inr rest => inr (cs ++ rest)
          end
      end
  end.

Definition getitem_list (df : DataFrame) (keys : list string)
  : exn + DataFrame :=
  match getitem_cols df keys with
  | inl e => inl e
  | inr cs => inr {| index_len := index_len df; cols := cs |}
  end.

(** The columns after [df[name] = values]: the columns of that label
    are replaced where they stand, a new label is added last. *)
Definition set_col (cs : list (string * Series)) (name : string)
  (values : Series) : list (string * Series) :=
  if existsb (has_label name) cs
  then map (fun c => if has_label name c then (name, values) else c) cs
  else cs ++ [(name, values)].

(** [df[name] = values] with a sequence of values.  A table whose
    index is empty takes the index of a non-empty sequence, its other
    columns filled with NaN; otherwise the lengths must agree. *)
Definition setitem (df : DataFrame) (name : string) (values : Series)
  : exn + DataFrame :=
  if (index_len df =? 0)%nat && (0 <? length values)%nat then
    inr {| index_len := length values;
           cols := set_col
                     (map (fun c => (fst c, repeat NA (length values)))
                          (cols df))
                     name values |}
  else if (length values =? index_len df)%nat then
    inr {| index_len := index_len df;
           cols := set_col (cols df) name values |}
  else inl (ValueError (index_len df) (length values)).

(** The cells of [s] at the rows where [mask] is false. *)
Fixpoint drop_rows (mask : list bool) (s : Series) : Series :=
  match mask, s with
  | b :: mask', v :: s' =>
      if b then drop_rows mask' s' else v :: drop_rows mask' s'
  | _, _ => []
  end.

(** For each row, whether one of the [subset] columns is missing
    there. *)
Fixpoint na_mask (df : DataFrame) (subset : list string)
  : exn + list bool :=
  match subset with
  | [] => inr (repeat false (index_len df))
  | k :: subset' =>
      match getitem df k, na_mask df subset' with
      | inl e, _ => inl e
      | _, inl e => inl e
      | inr c, inr m =>
          inr (map (fun p => isna (fst p) || snd p) (combine c m))
      end
  end.

Definition count_false (mask : list bool) : nat :=
  length (filter negb mask).

(** [df.dropna(subset=subset)]: a new table without the rows that
    have a missing value in one of the [subset] columns. *)
Definition dropna (subset : list string) (df : DataFrame)
  : exn + DataFrame :=
  match na_mask df subset with
  | inl e => inl e
  | inr mask =>
      inr {| index_len := count_false mask;
             cols := map (fun c => (fst c, drop_rows mask (snd c)))
                         (cols df) |}
  end.

(** [df.head()]: the first five rows. *)
Definition head (df : DataFrame) : DataFrame :=
  {| index_len := Nat.min 5 (index_len df);
     cols := map (fun c => (fst c, firstn 5 (snd c))) (cols df) |}.

(** [df.copy()]: tables are values here. *)
Definition copy (df : DataFrame) : DataFrame := df.

(** [series.tolist()] of a column of lists.  The script calls it on
    the [Fingerprint] column only, which holds nothing else. *)
Fixpoint tolist (s : Series) : exn + list (list Z) :=
  match s with
  | [] => inr []
  | PList l :: s' =>
      match tolist s' with
      | inl e => inl e
      | inr ls => inr (l :: ls)
      end
  | v :: _ => inl (TypeError v)
  end.

Definition width (data : list (list Z)) : nat :=
  fold_right (fun row w => Nat.max (length row) w) 0%nat data.

(** Column [j] of a list of rows; a row too short has NaN there. *)
Definition column_of_rows (data : list (list Z)) (j : nat) : Series :=
  map (fun row => match nth_error row j with
                  | Some z => PInt z
                  | None => NA
                  end) data.

(** [pd.DataFrame(data, columns=names)] for a list of rows: as many
    names as the longest row has cells, or a [ValueError]. *)
Definition DataFrame_of_rows (data : list (list Z)) (names : list string)
  : exn + DataFrame :=
  match data with
  | [] => inr {| index_len := 0; cols := map (fun n => (n, [])) names |}
  | _ =>
      if (width data =? length names)%nat then
        inr {| index_len := length data;
               cols := map (fun jn => (snd jn, column_of_rows data (fst jn)))
                           (combine (seq 0 (length names)) names) |}
      else inl (ValueError (length names) (width data))
  end.

(** [df.columns = names]: relabels the columns by position. *)
Definition set_columns (df : DataFrame) (names : list string)
  : exn + DataFrame :=
  if (length names =? length (cols df))%nat then
    inr {| index_len := index_len df;
           cols := map (fun nc => (fst nc, snd (snd nc)))
                       (combine names (cols df)) |}
  else inl (ValueError (length (cols df)) (length names)).

(** Row [i] of a table, one cell per column. *)
Definition row (df : DataFrame) (i : nat) : list pyval :=
  map (fun c => nth i (snd c) NA) (cols df).

Definition rows (df : DataFrame) : list (list pyval) :=
  map (row df) (seq 0 (index_len df)).

(** [df.to_csv(index=False)]. *)
Definition to_csv (df : DataFrame) : csv_file :=
  {| csv_header := columns df; csv_records := rows df |}.

(** [str(i)] of a natural number. *)
Definition str (i : nat) : string := NilZero.string_of_uint (Nat.to_uint i).

(** ** RDKit's fingerprint generator *)

Record MorganGenerator : Type := GetMorganGenerator {
  radius : nat;
  fpSize : nat
}.

(** Line 32. *)
Definition morgan_gen : MorganGenerator := GetMorganGenerator 2 1024.

(** [list(fp)] of a bit vector: its bits as integers. *)
Definition list_of_bits (fp : list bool) : list Z := map Z.b2z fp.

(** Lines 82-91. *)
Definition example_data : DataFrame :=
  {| index_len := 5;
     cols := [("SMILES", [PStr "CCO"; PStr "CCCC"; PStr "CC(=O)O";
                          PStr "CCN(CC)CC"; PStr "CC(C)O"])] |}.

Definition missing_column_msg : string :=
  "O arquivo deve conter uma coluna chamada 'SMILES'.".
Definition no_valid_molecule_msg : string :=
  "Nenhuma molécula válida encontrada no arquivo.".
Definition prediction_column : string := "Predição_Bioatividade".

(** ** The script *)

Section App.

(** RDKit: molecules, the SMILES parser ([None] when the text is not
    a molecule) and the bit vector a generator computes. *)
Variable Mol : Type.
Variable MolFromSmiles : string -> option Mol.
Variable GetFingerprint : MorganGenerator -> Mol -> list bool.

(** The trained model of line 21 and the columns of line 29. *)
Variable model_predict : DataFrame -> exn + list float64.
Variable reduced_columns : list string.

(** [Chem.MolFromSmiles(arg)]: anything but a [str] is refused with
    a [TypeError]. *)
Definition Chem_MolFromSmiles (arg : pyval) : M (option Mol) :=
  emit (MolFromSmiles_call arg) ;;
  match arg with
  | PStr s => ret (MolFromSmiles s)
  | _ => raise (TypeError arg)
  end.

(** Lines 35-41. *)
Definition compute_morgan_fingerprint (smiles : pyval) : M (list Z) :=
  mol <- Chem_MolFromSmiles smiles ;;
  match mol with
  | Some mol =>
      let fp := GetFingerprint morgan_gen mol in
      ret (list_of_bits fp)
  | None => ret (repeat 0%Z 1024)
  end.

(** What the encoder returns on a text. *)
Definition encode (s : string) : list Z :=
  match MolFromSmiles s with
  | Some mol => list_of_bits (GetFingerprint morgan_gen mol)
  | None => repeat 0%Z 1024
  end.

(** [model.predict(X)]. *)
Definition predict (X : DataFrame) : M (list float64) :=
  emit (predict_call X) ;;
  lift (model_predict X).

(** Lines 98-115: the table to work on, if any.  [uploaded_file] is
    the table [pd.read_csv] returned at line 106: a file it rejects
    ends the script there, before the [try] of line 118, and is no
    input of this function. *)
Definition load_input (use_example : bool)
  (uploaded_file : option DataFrame) : M (option DataFrame) :=
  if use_example then
    let molecules_df := copy example_data in
    emit (st_success "Dados de exemplo carregados!") ;;
    emit (st_write "Pré-visualização do arquivo:") ;;
    emit (st_dataframe molecules_df) ;;
    ret (Some molecules_df)
  else
    match uploaded_file with
    | Some molecules_df =>
        if negb (existsb (String.eqb "SMILES") (columns molecules_df))
        then
          emit (st_error (Literal missing_column_msg)) ;;
          ret None
        else
          emit (st_success "Arquivo carregado com sucesso!") ;;
          emit (st_write "Pré-visualização do arquivo:") ;;
          emit (st_dataframe (head molecules_df)) ;;
          ret (Some molecules_df)
    | None => ret None
    end.

(** Lines 121-124: the fingerprints, stored in the table, and the
    filter on them. *)
Definition fingerprint (molecules_df : DataFrame) : M DataFrame :=
  smiles <- lift (getitem molecules_df "SMILES") ;;
  fps <- apply compute_morgan_fingerprint smiles ;;
  lift (setitem molecules_df "Fingerprint" (map PList fps)).

Definition filter_valid (molecules_df : DataFrame) : M DataFrame :=
  lift (dropna ["Fingerprint"] molecules_df).

(** Lines 131-133. *)
Definition features (valid_molecules : DataFrame) : M DataFrame :=
  fps <- lift (getitem valid_molecules "Fingerprint") ;;
  data <- lift (tolist fps) ;;
  X <- lift (DataFrame_of_rows data
               (map (fun i => "morgan_fp_" ++ str i)%string (seq 0 1024))) ;;
  lift (set_columns X (map str (seq 0 (length (cols X))))).

Definition result_columns : list string := ["SMILES"; prediction_column].

(** Lines 128-157: the table [valid_molecules] the block ends
    with. *)
Definition predict_and_show (valid_molecules : DataFrame) : M DataFrame :=
  emit (st_success "Moléculas processadas com sucesso!") ;;
  X <- features valid_molecules ;;
  X_reduced <- lift (getitem_list X reduced_columns) ;;
  emit (st_write "Realizando predições de bioatividade...") ;;
  predictions <- predict X_reduced ;;
  valid_molecules <-
    lift (setitem valid_molecules prediction_column
                  (map PFloat predictions)) ;;
  emit (st_success "Predições concluídas!") ;;
  emit (st_write "Resultados:") ;;
  shown <- lift (getitem_list valid_molecules result_columns) ;;
  emit (st_dataframe shown) ;;
  emit (st_write "Distribuição das predições:") ;;
  emit (st_plotly_chart valid_molecules prediction_column) ;;
  selected <- lift (getitem_list valid_molecules result_columns) ;;
  let csv := to_csv selected in
  emit (st_download_button "📥 Baixar Predições" csv
                           "predicoes.csv" "text/csv") ;;
  ret valid_molecules.

(** Lines 119-157, the body of the [try]: [None] when no row is
    left after the filter. *)
Definition process (molecules_df : DataFrame) : M (option DataFrame) :=
  molecules_df <- fingerprint molecules_df ;;
  valid_molecules <- filter_valid molecules_df ;;
  if empty valid_molecules then
    emit (st_error (Literal no_valid_molecule_msg)) ;;
    ret None
  else
    valid_molecules <- predict_and_show valid_molecules ;;
    ret (Some valid_molecules).

(** Lines 158-159. *)
Definition handler (e : exn) : M (option DataFrame) :=
  emit (st_error (Formatted "Ocorreu um erro: " e)) ;;
  ret None.

(** Lines 96-159: one run of the script, from the state of the
    checkbox and of the file uploader. *)
Definition script (use_example : bool) (uploaded_file : option DataFrame)
  : M (option DataFrame) :=
  molecules_df <- load_input use_example uploaded_file ;;
  match molecules_df with
  | Some molecules_df => try_except (process molecules_df) handler
  | None => ret None
  end.

End App.

(** ** The encoder over a library that keeps a state

    Lines 35-41 once more, with what a call could depend on besides
    its argument made explicit: the global [morgan_gen] it reads, and
    a state of RDKit that each call of the library may read and
    change. *)

Record World (Lib : Type) : Type := {
  global_morgan_gen : MorganGenerator;
  rdkit : Lib
}.

Section Stateful.

Variable Mol : Type.
Variable Lib : Type.
Variable MolFromSmiles_in : string -> Lib -> option Mol * Lib.
Variable GetFingerprint_in : MorganGenerator -> Mol -> Lib -> list bool * Lib.

Definition compute_morgan_fingerprint_in (smiles : pyval) (w : World Lib)
  : (exn + list Z) * World Lib :=
  match smiles with
  | PStr s =>
      let '(mol, l1) := MolFromSmiles_in s (rdkit w) in
      match mol with
      | Some mol =>
          let '(fp, l2) := GetFingerprint_in (global_morgan_gen w) mol l1 in
          (inr (list_of_bits fp),
           {| global_morgan_gen := global_morgan_gen w; rdkit := l2 |})
      | None =>
          (inr (repeat 0%Z 1024),
           {| global_morgan_gen := global_morgan_gen w; rdkit := l1 |})
      end
  | _ => (inl (TypeError smiles), w)
  end.

End Stateful.

(** ** Tables of the run, written out *)

(** The labels line 132 gives the columns of [X]. *)
Definition labels : list string := map str (seq 0 1024).

(** The table [X] of lines 131-132 for the fingerprints [fps]. *)
Definition fp_frame (fps : list (list Z)) : DataFrame :=
  {| index_len := length fps;
     cols := map (fun j => (str j, column_of_rows fps j)) (seq 0 1024) |}.

(** The table after line 121. *)
Definition with_fingerprints (df : DataFrame) (fps : list (list Z))
  : DataFrame :=
  {| index_len := index_len df;
     cols := set_col (cols df) "Fingerprint" (map PList fps) |}.

(** The table after line 138. *)
Definition with_predictions (df : DataFrame) (predictions : list float64)
  : DataFrame :=
  {| index_len := index_len df;
     cols := set_col (cols df) prediction_column (map PFloat predictions) |}.

(** The column of [df] labelled [name], empty if there is none. *)
Definition column (df : DataFrame) (name : string) : Series :=
  match getitem df name with
  | inr c => c
  | inl _ => []
  end.

(** The table shown and offered for download. *)
Definition result_table (df : DataFrame) (predictions : list float64)
  : DataFrame :=
  {| index_len := index_len df;
     cols := [("SMILES", column df "SMILES");
              (prediction_column, map PFloat predictions)] |}.

(** What lines 128-157 show when nothing fails. *)
Definition shown (X_reduced valid_molecules result : DataFrame)
  : list event :=
  [st_success "Moléculas processadas com sucesso!";
   st_write "Realizando predições de bioatividade...";
   predict_call X_reduced;
   st_success "Predições concluídas!";
   st_write "Resultados:";
   st_dataframe result;
   st_write "Distribuição das predições:";
   st_plotly_chart valid_molecules prediction_column;
   st_download_button "📥 Baixar Predições" (to_csv result)
                      "predicoes.csv" "text/csv"].

(** The two messages of [st.error] inside the [try]. *)
Definition no_valid_molecule : event :=
  st_error (Literal no_valid_molecule_msg).

Definition caught (e : exn) : event :=
  st_error (Formatted "Ocorreu um erro: " e).

(** What lines 111-113 show of an upload. *)
Definition preview (df : DataFrame) : list event :=
  [st_success "Arquivo carregado com sucesso!";
   st_write "Pré-visualização do arquivo:";
   st_dataframe (head df)].

(** The files a run offers for download, and their records: the
    prediction rows a run produces. *)
Definition downloads (t : list event) : list csv_file :=
  flat_map (fun ev => match ev with
                      | st_download_button _ data _ _ => [data]
                      | _ => []
                      end) t.


(** The calls of the parser over a column. *)
Definition calls (smiles : Series) : list event :=
  map MolFromSmiles_call smiles.

(** ** The reduced columns, and what a run calls *)

(** Lines 25-27: the columns of the reference table but the last
    ([columns[:-1]], which is empty when there is at most one). *)
Definition load_reduced_columns (reference_columns : list string)
  : list string :=
  removelast reference_columns.

(** The arguments of the calls of the parser, of the model, and the
    messages of [st.error], in the order of a run. *)
Definition parser_calls (t : list event) : list pyval :=
  flat_map (fun ev => match ev with
                      | MolFromSmiles_call v => [v]
                      | _ => []
                      end) t.

Definition model_calls (t : list event) : list DataFrame :=
  flat_map (fun ev => match ev with
                      | predict_call X => [X]
                      | _ => []
                      end) t.

Definition errors (t : list event) : list message :=
  flat_map (fun ev => match ev with
                      | st_error msg => [msg]
                      | _ => []
                      end) t.

(** How lines 125-159 end on a table of [fps] fingerprints, once the
    parser has been called on every row: no row; a label that is no
    column; a model that raises, or answers with the wrong number of
    predictions; or the results. *)
Definition ending (model_predict : DataFrame -> exn + list float64)
  (reduced_columns : list string) (df : DataFrame) (fps : list (list Z))
  : M (option DataFrame) :=
  if (index_len df =? 0)%nat then ([no_valid_molecule], inr None)
  else
    match getitem_list (fp_frame fps) reduced_columns with
    | inl e =>
        ([st_success "Moléculas processadas com sucesso!"; caught e],
         inr None)
    | inr X_reduced =>
        match model_predict X_reduced with
        | inl e => (firstn 3 (shown X_reduced df df) ++ [caught e], inr None)
        | inr preds =>
            if (length preds =? index_len df)%nat then
              (shown X_reduced
                     (with_predictions (with_fingerprints df fps) preds)
                     (result_table df preds),
               inr (Some (with_predictions (with_fingerprints df fps) preds)))
            else
              (firstn 3 (shown X_reduced df df)
               ++ [caught (ValueError (index_len df) (length preds))],
               inr None)
        end
    end.

(** The columns [keys] of the table of the fingerprints [fps]: what
    line 133 hands to the model when every key is a label. *)
Definition selected (fps : list (list Z)) (keys : list string) : DataFrame :=
  {| index_len := length fps;
     cols := map (fun k => (k, column (fp_frame fps) k)) keys |}.

(** ** A small stand-in for RDKit and for the model, to run the
  script on concrete tables *)

Module Toy.

(** Molecules are their own text; only chains of C, N and O parse. *)
Definition Mol := string.

Fixpoint atoms_only (s : string) : bool :=
  match s with
  | EmptyString => true
  | String c s' =>
      (Ascii.eqb c "C" || Ascii.eqb c "N" || Ascii.eqb c "O")
      && atoms_only s'
  end.

Definition MolFromSmiles (s : string) : option Mol :=
  if atoms_only s then Some s else None.

(** Bit [i] is set when the molecule has more than [i] atoms. *)
Definition GetFingerprint (g : MorganGenerator) (m : Mol) : list bool :=
  map (fun i => (i <? String.length m)%nat) (seq 0 (fpSize g)).

(** The model answers the number of columns it was given, once per
    row. *)
Definition model_predict (X : DataFrame) : exn + list float64 :=
  inr (repeat (Finite (Z.of_nat (length (cols X))) 0) (index_len X)).

Definition reduced_columns : list string := ["3"; "0"; "1023"].

Definition run := script MolFromSmiles GetFingerprint model_predict
                      reduced_columns.

(** The file this model gives for the example data. *)
Definition example_result : csv_file :=
  {| csv_header := ["SMILES"; prediction_column];
     csv_records := [[PStr "CCO"; PFloat (Finite 3 0)];
                     [PStr "CCCC"; PFloat (Finite 3 0)];
                     [PStr "CC(=O)O"; PFloat (Finite 3 0)];
                     [PStr "CCN(CC)CC"; PFloat (Finite 3 0)];
                     [PStr "CC(C)O"; PFloat (Finite 3 0)]] |}.

(** An upload with a missing SMILES: the cell is NaN. *)
Definition upload_with_gap : DataFrame :=
  {| index_len := 2;
     cols := [("SMILES", [PStr "CCO"; PFloat NaN]);
              ("name", [PStr "ethanol"; PStr "unknown"])] |}.

(** An upload that brings a column named Fingerprint of its own. *)
Definition upload_with_fingerprint : DataFrame :=
  {| index_len := 1;
     cols := [("SMILES", [PStr "CCO"]);
              ("Fingerprint", [PStr "ECFP4"]);
              ("name", [PStr "ethanol"])] |}.

(** A library with a state: it counts its calls, and answers as the
    stand-in above. *)
Definition Lib := nat.

Definition MolFromSmiles_in (s : string) (calls : Lib) : option Mol * Lib :=
  (MolFromSmiles s, S calls).

Definition GetFingerprint_in (g : MorganGenerator) (m : Mol) (calls : Lib)
  : list bool * Lib :=
  (GetFingerprint g m, S calls).


(** An upload that brings both columns the script sets. *)
Definition upload_with_both : DataFrame :=
  {| index_len := 1;
     cols := [("Fingerprint", [PStr "ECFP4"]);
              ("SMILES", [PStr "CCO"]);
              ("Predição_Bioatividade", [PStr "high"]);
              ("name", [PStr "ethanol"])] |}.

(** A model that raises, and one that answers nothing. *)
Definition failing_model (X : DataFrame) : exn + list float64 :=
  inl (ModelError "model not fitted").

Definition silent_model (X : DataFrame) : exn + list float64 := inr [].

(** An upload of one molecule, and two of texts that do not parse. *)
Definition one_molecule : DataFrame :=
  {| index_len := 1; cols := [("SMILES", [PStr "CCO"])] |}.

Definition no_molecule : DataFrame :=
  {| index_len := 1; cols := [("SMILES", [PStr "zz"])] |}.

Definition no_molecule_either : DataFrame :=
  {| index_len := 1;
     cols := [("id", [PInt 7]); ("SMILES", [PStr "c1"])] |}.

(** What the model is given for [one_molecule]. *)
Definition model_input : DataFrame :=
  selected (map (encode MolFromSmiles GetFingerprint) ["CCO"]) reduced_columns.

(** A table with its fingerprints, as line 131 reads it. *)
Definition fingerprinted : DataFrame :=
  {| index_len := 1;
     cols := [("Fingerprint", [PList (repeat 1%Z 1024)])] |}.

End Toy.

(** * Properties *)

Unset Implicit Arguments.

(** ** The monad *)

Lemma trace_bind {A B} (m : M A) (f : A -> M B) :
  trace (bind m f) =
  trace m ++ match outcome m with
             | inl _ => []
             | inr a => trace (f a)
             end.
Proof.
  destruct m as [t [e | a]]; simpl.
  - now rewrite app_nil_r.
  - now destruct (f a).
Qed.

Lemma outcome_bind {A B} (m : M A) (f : A -> M B) :
  outcome (bind m f) =
  match outcome m with
  | inl e => inl e
  | inr a => outcome (f a)
  end.
Proof.
  destruct m as [t [e | a]]; simpl; [reflexivity | now destruct (f a)].
Qed.

Lemma bind_ret_l {A B} (a : A) (f : A -> M B) : bind (ret a) f = f a.
Proof. unfold bind, ret. now destruct (f a). Qed.

Lemma bind_lift_inr {A B} (a : A) (f : A -> M B) : bind (lift (inr a)) f = f a.
Proof. apply bind_ret_l. Qed.

Lemma bind_lift_inl {A B} (e : exn) (f : A -> M B) :
  bind (lift (inl e)) f = raise e.
Proof. reflexivity. Qed.

Lemma bind_emit {B} (ev : event) (k : M B) :
  bind (emit ev) (fun _ => k) = (ev :: trace k, outcome k).
Proof. unfold bind, emit. now destruct k. Qed.

Lemma bind_run {A B} (t : list event) (a : A) (f : A -> M B) :
  bind (t, inr a) f = (t ++ trace (f a), outcome (f a)).
Proof. unfold bind. now destruct (f a). Qed.

Lemma emit_then {B} (ev : event) (k : M B) :
  bind (emit ev) (fun _ => k) = prepend [ev] k.
Proof. unfold bind, emit, prepend. now destruct k. Qed.

Lemma bind_prepend {A B} (t : list event) (m : M A) (f : A -> M B) :
  bind (prepend t m) f = prepend t (bind m f).
Proof.
  destruct m as [t' [e | a]]; unfold prepend, bind; simpl; [reflexivity |].
  destruct (f a). simpl. now rewrite app_assoc.
Qed.

Lemma bind_returned {A B} (t : list event) (a : A) (f : A -> M B) :
  bind (t, inr a) f = prepend t (f a).
Proof. unfold bind, prepend. now destruct (f a). Qed.

Lemma bind_raised {A B} (m : M A) (f : A -> M B) (e : exn) :
  outcome m = inl e -> bind m f = (trace m, inl e).
Proof. destruct m as [t [e' | a]]; simpl; [now intros [= ->] | discriminate]. Qed.

Lemma try_except_prepend {A} (t : list event) (m : M A) (h : exn -> M A) :
  try_except (prepend t m) h = prepend t (try_except m h).
Proof.
  destruct m as [t' [e | a]]; unfold prepend, try_except; simpl;
    [| reflexivity].
  destruct (h e). simpl. now rewrite app_assoc.
Qed.

Lemma trace_prepend {A} (t : list event) (m : M A) :
  trace (prepend t m) = t ++ trace m.
Proof. reflexivity. Qed.

Lemma outcome_prepend {A} (t : list event) (m : M A) :
  outcome (prepend t m) = outcome m.
Proof. reflexivity. Qed.

Lemma prepend_prepend {A} (t t' : list event) (m : M A) :
  prepend t (prepend t' m) = prepend (t ++ t') m.
Proof. unfold prepend. simpl. now rewrite app_assoc. Qed.

Lemma M_eta {A} (m : M A) : m = (trace m, outcome m).
Proof. now destruct m. Qed.

(** An event of a sequence comes from its first part, or from the
    second after the first returned. *)
Lemma In_trace_bind {A B} (m : M A) (f : A -> M B) (ev : event) :
  In ev (trace (bind m f)) ->
  In ev (trace m) \/ exists a, outcome m = inr a /\ In ev (trace (f a)).
Proof.
  rewrite trace_bind, in_app_iff. intros [H | H]; [now left |].
  destruct (outcome m) as [e | a]; [contradiction |].
  right. now exists a.
Qed.

(** ** The encoder *)

Section Encoder.

Variable Mol : Type.
Variable MolFromSmiles : string -> option Mol.
Variable GetFingerprint : MorganGenerator -> Mol -> list bool.

Local Notation encoder :=
  (compute_morgan_fingerprint MolFromSmiles GetFingerprint).

Local Notation encode := (encode MolFromSmiles GetFingerprint).

Lemma encoder_str (s : string) :
  encoder (PStr s) = ([MolFromSmiles_call (PStr s)], inr (encode s)).
Proof.
  unfold compute_morgan_fingerprint, Chem_MolFromSmiles, encode.
  rewrite bind_emit. simpl.
  now destruct (MolFromSmiles s).
Qed.

Lemma encoder_not_str (v : pyval) :
  (forall s, v <> PStr s) ->
  encoder v = ([MolFromSmiles_call v], inl (TypeError v)).
Proof.
  intros H. destruct v; try reflexivity. now destruct (H s).
Qed.

(** C1: on a text that does not parse as a molecule the encoder
    raises nothing and returns a vector of exactly 1024 entries, all
    of them zero. *)
Theorem encoder_unparseable_zero (s : string) :
  MolFromSmiles s = None ->
  exists v, outcome (encoder (PStr s)) = inr v /\
            length v = 1024 /\ Forall (fun z => z = 0%Z) v.
Proof.
  intros Hnone. exists (repeat 0%Z 1024).
  rewrite encoder_str. unfold encode. rewrite Hnone.
  split; [reflexivity | split].
  - apply repeat_length.
  - apply Forall_forall. intros z Hz. now apply repeat_spec in Hz.
Qed.

(** A generator built for [fpSize] bits returns that many. *)
Hypothesis GetFingerprint_size :
  forall g mol, length (GetFingerprint g mol) = fpSize g.

Lemma encode_length (s : string) : length (encode s) = 1024.
Proof.
  unfold encode. destruct (MolFromSmiles s).
  - unfold list_of_bits. now rewrite length_map, GetFingerprint_size.
  - apply repeat_length.
Qed.

Lemma encode_nonneg (s : string) : Forall (fun z => (0 <= z)%Z) (encode s).
Proof.
  unfold encode. destruct (MolFromSmiles s).
  - unfold list_of_bits. apply Forall_forall. intros z Hz.
    apply in_map_iff in Hz. destruct Hz as [b [<- _]]. now destruct b.
  - apply Forall_forall. intros z Hz. apply repeat_spec in Hz. lia.
Qed.

(** C2: on every text, molecule or not, the encoder returns a vector
    of exactly 1024 entries, each a non-negative integer. *)
Theorem encoder_1024_nonneg (s : string) :
  exists v, outcome (encoder (PStr s)) = inr v /\
            length v = 1024 /\ Forall (fun z => (0 <= z)%Z) v.
Proof.
  exists (encode s). rewrite encoder_str.
  split; [reflexivity | split].
  - apply encode_length.
  - apply encode_nonneg.
Qed.

End Encoder.

(** ** The encoder keeps no state *)

Section Determinism.

Variable Mol : Type.
Variable Lib : Type.
Variable MolFromSmiles_in : string -> Lib -> option Mol * Lib.
Variable GetFingerprint_in : MorganGenerator -> Mol -> Lib -> list bool * Lib.

Local Notation encoder_in :=
  (compute_morgan_fingerprint_in MolFromSmiles_in GetFingerprint_in).

(** What RDKit answers does not depend on its state. *)
Hypothesis parser_answer :
  forall s l l', fst (MolFromSmiles_in s l) = fst (MolFromSmiles_in s l').
Hypothesis generator_answer :
  forall g mol l l',
    fst (GetFingerprint_in g mol l) = fst (GetFingerprint_in g mol l').

(** A call leaves the global generator as it found it. *)
Lemma encoder_in_keeps_generator (v : pyval) (w : World Lib) :
  global_morgan_gen (snd (encoder_in v w)) = global_morgan_gen w.
Proof.
  unfold compute_morgan_fingerprint_in. destruct v; try reflexivity.
  destruct (MolFromSmiles_in s (rdkit w)) as [[mol |] l1]; [| reflexivity].
  now destruct (GetFingerprint_in (global_morgan_gen w) mol l1).
Qed.

(** Two worlds with the same generator give the same answer. *)
Lemma encoder_in_answer (s : string) (w w' : World Lib) :
  global_morgan_gen w = global_morgan_gen w' ->
  fst (encoder_in (PStr s) w) = fst (encoder_in (PStr s) w').
Proof.
  intros Hg. unfold compute_morgan_fingerprint_in.
  pose proof (parser_answer s (rdkit w) (rdkit w')) as Hp.
  destruct (MolFromSmiles_in s (rdkit w)) as [mol l1].
  destruct (MolFromSmiles_in s (rdkit w')) as [mol' l1'].
  simpl in Hp. subst mol'. destruct mol as [mol |]; [| reflexivity].
  pose proof (generator_answer (global_morgan_gen w) mol l1 l1') as Hf.
  rewrite <- Hg.
  destruct (GetFingerprint_in (global_morgan_gen w) mol l1) as [fp l2].
  destruct (GetFingerprint_in (global_morgan_gen w) mol l1') as [fp' l2'].
  simpl in Hf. now subst fp'.
Qed.

(** With a library that answers alike in every state, the encoder is
    the function [encode] of the text. *)
Lemma encoder_in_encode (s : string) (w : World Lib) (l0 : Lib) :
  global_morgan_gen w = morgan_gen ->
  fst (encoder_in (PStr s) w) =
  inr (encode (fun s => fst (MolFromSmiles_in s l0))
              (fun g mol => fst (GetFingerprint_in g mol l0)) s).
Proof.
  intros Hg. unfold compute_morgan_fingerprint_in, encode.
  rewrite (parser_answer s l0 (rdkit w)).
  destruct (MolFromSmiles_in s (rdkit w)) as [[mol |] l1]; [| reflexivity].
  cbn [fst]. rewrite (generator_answer morgan_gen mol l0 l1), Hg.
  now destruct (GetFingerprint_in morgan_gen mol l1).
Qed.

(** C8: with the generator of line 32 (radius 2, 1024 bits) as the
    global [morgan_gen], and RDKit answering alike whatever its state,
    a call of the encoder on a text returns the same vector in every
    state of the world; it leaves the generator in place, so that a
    second call after the first returns what the first returned. *)
Theorem encoder_deterministic (s : string) (w w' : World Lib) :
  global_morgan_gen w = GetMorganGenerator 2 1024 ->
  global_morgan_gen w' = GetMorganGenerator 2 1024 ->
  fst (encoder_in (PStr s) w) = fst (encoder_in (PStr s) w') /\
  global_morgan_gen (snd (encoder_in (PStr s) w)) = GetMorganGenerator 2 1024 /\
  fst (encoder_in (PStr s) (snd (encoder_in (PStr s) w))) =
    fst (encoder_in (PStr s) w).
Proof.
  intros Hw Hw'. split; [| split].
  - apply encoder_in_answer. now rewrite Hw, Hw'.
  - now rewrite encoder_in_keeps_generator.
  - apply encoder_in_answer. apply encoder_in_keeps_generator.
Qed.

End Determinism.

Lemma Toy_parser_answer (s : string) (l l' : Toy.Lib) :
  fst (Toy.MolFromSmiles_in s l) = fst (Toy.MolFromSmiles_in s l').
Proof. reflexivity. Qed.

Lemma Toy_generator_answer (g : MorganGenerator) (mol : Toy.Mol)
  (l l' : Toy.Lib) :
  fst (Toy.GetFingerprint_in g mol l) = fst (Toy.GetFingerprint_in g mol l').
Proof. reflexivity. Qed.

Lemma encoder_deterministic_witness :
  let encoder_in :=
    compute_morgan_fingerprint_in Toy.MolFromSmiles_in Toy.GetFingerprint_in in
  let w := {| global_morgan_gen := morgan_gen; rdkit := 0%nat |} in
  let w' := {| global_morgan_gen := morgan_gen; rdkit := 7%nat |} in
  global_morgan_gen w = GetMorganGenerator 2 1024 /\
  global_morgan_gen w' = GetMorganGenerator 2 1024 /\
  rdkit (snd (encoder_in (PStr "CCO") w)) = 2%nat /\
  fst (encoder_in (PStr "CCO") w) = fst (encoder_in (PStr "CCO") w') /\
  global_morgan_gen (snd (encoder_in (PStr "CCO") w)) =
    GetMorganGenerator 2 1024 /\
  fst (encoder_in (PStr "CCO") (snd (encoder_in (PStr "CCO") w))) =
    fst (encoder_in (PStr "CCO") w).
Proof.
  intros encoder_in w w'.
  split; [reflexivity | split; [reflexivity | split; [reflexivity |]]].
  exact (encoder_deterministic Toy.Mol Toy.Lib Toy.MolFromSmiles_in
           Toy.GetFingerprint_in Toy_parser_answer Toy_generator_answer
           "CCO" w w' eq_refl eq_refl).
Defined.

Lemma Toy_GetFingerprint_size (g : MorganGenerator) (mol : Toy.Mol) :
  length (Toy.GetFingerprint g mol) = fpSize g.
Proof. unfold Toy.GetFingerprint. now rewrite length_map, length_seq. Qed.

Lemma encoder_unparseable_zero_witness :
  Toy.MolFromSmiles "c1ccccc" = None /\
  exists v,
    outcome (compute_morgan_fingerprint Toy.MolFromSmiles Toy.GetFingerprint
               (PStr "c1ccccc")) = inr v /\
    length v = 1024 /\ Forall (fun z => z = 0%Z) v.
Proof.
  split; [reflexivity |].
  apply (encoder_unparseable_zero Toy.Mol Toy.MolFromSmiles
           Toy.GetFingerprint "c1ccccc").
  reflexivity.
Defined.

Lemma encoder_1024_nonneg_witness :
  exists v,
    outcome (compute_morgan_fingerprint Toy.MolFromSmiles Toy.GetFingerprint
               (PStr "CCO")) = inr v /\
    length v = 1024 /\ Forall (fun z => (0 <= z)%Z) v.
Proof.
  apply (encoder_1024_nonneg Toy.Mol Toy.MolFromSmiles Toy.GetFingerprint
           Toy_GetFingerprint_size "CCO").
Defined.

(** ** Labels *)

Lemma to_uint_not_Nil (n : nat) : Nat.to_uint n <> Decimal.Nil.
Proof.
  intros H.
  assert (Hn : n = 0%nat).
  { rewrite <- (DecimalNat.Unsigned.of_to n), H. reflexivity. }
  subst n. discriminate H.
Qed.

Lemma str_inj (n m : nat) : str n = str m -> n = m.
Proof.
  unfold str. intros H.
  apply DecimalNat.Unsigned.to_uint_inj.
  pose proof (NilZero.usu _ (to_uint_not_Nil n)) as Hn.
  pose proof (NilZero.usu _ (to_uint_not_Nil m)) as Hm.
  rewrite H in Hn. congruence.
Qed.

Lemma NoDup_map_str (l : list nat) : NoDup l -> NoDup (map str l).
Proof.
  induction 1 as [| x l Hx _ IH]; simpl; constructor; [| exact IH].
  intros Hin. apply in_map_iff in Hin. destruct Hin as [y [Hy Hin]].
  apply str_inj in Hy. now subst y.
Qed.

Lemma NoDup_labels : NoDup labels.
Proof. apply NoDup_map_str, seq_NoDup. Qed.

(** ** Columns by label *)

Lemma has_label_true (name : string) (c : string * Series) :
  has_label name c = true <-> fst c = name.
Proof. apply String.eqb_eq. Qed.

Lemma has_label_false (name : string) (c : string * Series) :
  has_label name c = false <-> fst c <> name.
Proof. apply String.eqb_neq. Qed.

Lemma existsb_has_label (cs : list (string * Series)) (name : string) :
  existsb (has_label name) cs = true <-> In name (map fst cs).
Proof.
  rewrite existsb_exists, in_map_iff.
  split; intros [c [H1 H2]]; exists c.
  - apply has_label_true in H2. now split.
  - split; [exact H2 | now apply has_label_true].
Qed.

Lemma existsb_has_label_false (cs : list (string * Series)) (name : string) :
  existsb (has_label name) cs = false <-> ~ In name (map fst cs).
Proof.
  rewrite <- existsb_has_label. now destruct (existsb (has_label name) cs).
Qed.

Lemma find_has_label (cs : list (string * Series)) (name : string) c :
  find (has_label name) cs = Some c -> In c cs /\ fst c = name.
Proof.
  intros H. apply find_some in H. destruct H as [H1 H2].
  split; [exact H1 | now apply has_label_true].
Qed.

Lemma find_has_label_None (cs : list (string * Series)) (name : string) :
  find (has_label name) cs = None <-> ~ In name (map fst cs).
Proof.
  split.
  - intros H Hin. apply in_map_iff in Hin. destruct Hin as [c [Hc Hin]].
    pose proof (find_none _ _ H c Hin) as Hf.
    apply has_label_false in Hf. contradiction.
  - intros H. destruct (find (has_label name) cs) as [c |] eqn:E; [| reflexivity].
    apply find_has_label in E. destruct E as [E1 E2].
    exfalso. apply H. apply in_map_iff. now exists c.
Qed.

Lemma find_has_label_Some (cs : list (string * Series)) (name : string) :
  In name (map fst cs) -> exists c, find (has_label name) cs = Some c.
Proof.
  intros H. destruct (find (has_label name) cs) as [c |] eqn:E.
  - now exists c.
  - apply find_has_label_None in E. contradiction.
Qed.

Lemma filter_has_label_nil (cs : list (string * Series)) (name : string) :
  filter (has_label name) cs = [] <-> ~ In name (map fst cs).
Proof.
  induction cs as [| a cs IH]; simpl.
  - tauto.
  - destruct (has_label name a) eqn:E.
    + apply has_label_true in E. split; [discriminate | intros H; tauto].
    + apply has_label_false in E. rewrite IH. tauto.
Qed.

(** Under unique labels, the columns of a label are the one [find]
    meets. *)
Lemma filter_unique (cs : list (string * Series)) (name : string) c :
  NoDup (map fst cs) ->
  find (has_label name) cs = Some c ->
  filter (has_label name) cs = [c].
Proof.
  induction cs as [| a cs IH]; simpl; intros ND H; [discriminate |].
  inversion ND as [| x l Hx ND']; subst.
  destruct (has_label name a) eqn:E.
  - injection H as <-. f_equal.
    apply filter_has_label_nil. apply has_label_true in E. now rewrite <- E.
  - now apply IH.
Qed.

Lemma getitem_In (df : DataFrame) (name : string) (c : Series) :
  getitem df name = inr c -> In (name, c) (cols df).
Proof.
  unfold getitem. destruct (find (has_label name) (cols df)) as [[k v] |] eqn:E;
    [| discriminate].
  intros [= <-]. apply find_has_label in E. simpl in E.
  destruct E as [E1 E2]. now subst k.
Qed.

Lemma getitem_columns (df : DataFrame) (name : string) (c : Series) :
  getitem df name = inr c -> In name (columns df).
Proof.
  intros H. apply getitem_In in H. unfold columns.
  apply in_map_iff. now exists (name, c).
Qed.

Lemma getitem_missing (df : DataFrame) (name : string) :
  ~ In name (columns df) -> getitem df name = inl (KeyError name).
Proof.
  intros H. unfold getitem.
  now rewrite (proj2 (find_has_label_None (cols df) name) H).
Qed.

Lemma getitem_present (df : DataFrame) (name : string) :
  In name (columns df) -> exists c, getitem df name = inr c.
Proof.
  intros H. apply find_has_label_Some in H. destruct H as [c H].
  exists (snd c). unfold getitem. now rewrite H.
Qed.

Lemma getitem_length (df : DataFrame) (name : string) (c : Series) :
  Forall (fun c => length (snd c) = index_len df) (cols df) ->
  getitem df name = inr c -> length c = index_len df.
Proof.
  intros Hlen H. apply getitem_In in H.
  rewrite Forall_forall in Hlen. exact (Hlen _ H).
Qed.

(** ** Selecting a list of labels *)

Lemma getitem_cols_unique (df : DataFrame) (keys : list string) :
  NoDup (columns df) ->
  (forall k, In k keys -> In k (columns df)) ->
  getitem_cols df keys = inr (map (fun k => (k, column df k)) keys).
Proof.
  intros ND. induction keys as [| k keys IH]; intros Hin; [reflexivity |].
  simpl. unfold labelled.
  destruct (find_has_label_Some (cols df) k (Hin k (or_introl eq_refl)))
    as [c Hc].
  rewrite (filter_unique _ _ _ ND Hc).
  rewrite IH by (intros k' Hk'; apply Hin; now right).
  simpl. unfold column, getitem. rewrite Hc.
  apply find_has_label in Hc. destruct Hc as [_ Hk].
  destruct c as [k0 v]. simpl in *. now subst k0.
Qed.

Lemma getitem_cols_missing (df : DataFrame) (keys : list string) (k : string) :
  In k keys -> ~ In k (columns df) ->
  exists k', getitem_cols df keys = inl (KeyError k') /\
             In k' keys /\ ~ In k' (columns df).
Proof.
  induction keys as [| k0 keys IH]; intros Hin Hk; [contradiction |].
  simpl. unfold labelled.
  destruct (filter (has_label k0) (cols df)) as [| c cs] eqn:E.
  - exists k0. apply filter_has_label_nil in E. now repeat split; [left |].
  - destruct Hin as [-> | Hin].
    + apply filter_has_label_nil in Hk. unfold columns in *. congruence.
    + destruct (IH Hin Hk) as [k' [H1 [H2 H3]]].
      exists k'. rewrite H1. now repeat split; [right |].
Qed.

(** ** Setting a column *)

Lemma columns_set_col (cs : list (string * Series)) (name : string)
  (v : Series) :
  map fst (set_col cs name v) =
  if existsb (has_label name) cs then map fst cs else map fst cs ++ [name].
Proof.
  unfold set_col. destruct (existsb (has_label name) cs).
  - rewrite map_map. apply map_ext. intros c.
    destruct (has_label name c) eqn:E; [| reflexivity].
    apply has_label_true in E. now rewrite E.
  - now rewrite map_app.
Qed.

Lemma NoDup_snoc {A} (l : list A) (x : A) :
  NoDup l -> ~ In x l -> NoDup (l ++ [x]).
Proof.
  induction 1 as [| y l Hy _ IH]; simpl; intros Hx.
  - constructor; [tauto | constructor].
  - constructor.
    + rewrite in_app_iff. simpl. intros [H | [H | []]]; [tauto |].
      subst y. tauto.
    + apply IH. tauto.
Qed.

Lemma NoDup_set_col (cs : list (string * Series)) (name : string)
  (v : Series) :
  NoDup (map fst cs) -> NoDup (map fst (set_col cs name v)).
Proof.
  intros ND. rewrite columns_set_col.
  destruct (existsb (has_label name) cs) eqn:E; [exact ND |].
  apply NoDup_snoc; [exact ND | now apply existsb_has_label_false].
Qed.

Lemma In_columns_set_col (cs : list (string * Series)) (name k : string)
  (v : Series) :
  In k (map fst cs) -> In k (map fst (set_col cs name v)).
Proof.
  intros H. rewrite columns_set_col.
  destruct (existsb (has_label name) cs); [exact H |].
  apply in_app_iff. now left.
Qed.

Lemma find_snoc_other (cs : list (string * Series)) (name : string) c :
  has_label name c = false ->
  find (has_label name) (cs ++ [c]) = find (has_label name) cs.
Proof.
  intros Hc. induction cs as [| a cs IH]; simpl.
  - now rewrite Hc.
  - now destruct (has_label name a).
Qed.

Lemma find_set_col_same (cs : list (string * Series)) (name : string)
  (v : Series) :
  find (has_label name) (set_col cs name v) = Some (name, v).
Proof.
  assert (Hself : has_label name (name, v) = true)
    by now apply has_label_true.
  unfold set_col. destruct (existsb (has_label name) cs) eqn:E.
  - induction cs as [| a cs IH]; simpl in *; [discriminate |].
    destruct (has_label name a) eqn:Ea; simpl.
    + now rewrite Hself.
    + rewrite Ea. now apply IH.
  - induction cs as [| a cs IH]; simpl in *.
    + now rewrite Hself.
    + destruct (has_label name a) eqn:Ea; [discriminate |]. now apply IH.
Qed.

Lemma find_set_col_other (cs : list (string * Series)) (name k : string)
  (v : Series) :
  k <> name ->
  find (has_label k) (set_col cs name v) = find (has_label k) cs.
Proof.
  intros Hk.
  assert (Hnew : has_label k (name, v) = false).
  { apply has_label_false. simpl. congruence. }
  unfold set_col. destruct (existsb (has_label name) cs).
  - induction cs as [| a cs IH]; simpl; [reflexivity |].
    destruct (has_label name a) eqn:Ea.
    + rewrite Hnew. apply has_label_true in Ea.
      assert (Ha : has_label k a = false)
        by (apply has_label_false; congruence).
      now rewrite Ha.
    + now destruct (has_label k a).
  - now apply find_snoc_other.
Qed.

Lemma Forall_length_set_col (cs : list (string * Series)) (name : string)
  (v : Series) (n : nat) :
  Forall (fun c => length (snd c) = n) cs -> length v = n ->
  Forall (fun c => length (snd c) = n) (set_col cs name v).
Proof.
  intros Hcs Hv. unfold set_col.
  destruct (existsb (has_label name) cs).
  - apply Forall_map. eapply Forall_impl; [| exact Hcs].
    intros c Hc. now destruct (has_label name c).
  - apply Forall_app. split; [exact Hcs | now constructor].
Qed.

Lemma setitem_same_length (df : DataFrame) (name : string) (v : Series) :
  length v = index_len df ->
  setitem df name v =
  inr {| index_len := index_len df; cols := set_col (cols df) name v |}.
Proof.
  intros H. unfold setitem. rewrite H, Nat.eqb_refl.
  destruct (index_len df); reflexivity.
Qed.

Lemma setitem_wrong_length (df : DataFrame) (name : string) (v : Series) :
  index_len df <> 0%nat -> length v <> index_len df ->
  setitem df name v = inl (ValueError (index_len df) (length v)).
Proof.
  intros H0 H. unfold setitem.
  apply Nat.eqb_neq in H0, H. now rewrite H0, H.
Qed.

(** ** The filter *)

Lemma drop_rows_none (s : Series) :
  drop_rows (repeat false (length s)) s = s.
Proof. induction s as [| v s IH]; simpl; [reflexivity | now rewrite IH]. Qed.

Lemma mask_none (c : Series) :
  Forall (fun v => isna v = false) c ->
  map (fun p => isna (fst p) || snd p) (combine c (repeat false (length c))) =
  repeat false (length c).
Proof.
  induction 1 as [| v c Hv _ IH]; simpl; [reflexivity |].
  now rewrite Hv, IH.
Qed.

Lemma count_false_none (n : nat) : count_false (repeat false n) = n.
Proof.
  unfold count_false. induction n as [| n IH]; simpl; [reflexivity |].
  now rewrite IH.
Qed.

Lemma drop_rows_columns (n : nat) (cs : list (string * Series)) :
  Forall (fun c => length (snd c) = n) cs ->
  map (fun c => (fst c, drop_rows (repeat false n) (snd c))) cs = cs.
Proof.
  induction 1 as [| [k v] cs Hv _ IH]; simpl; [reflexivity |].
  simpl in Hv. rewrite IH. rewrite <- Hv. now rewrite drop_rows_none.
Qed.

(** A table whose column [name] has no missing value comes out of
    [dropna] as it went in. *)
Lemma dropna_nothing (df : DataFrame) (name : string) (c : Series) :
  Forall (fun c => length (snd c) = index_len df) (cols df) ->
  getitem df name = inr c ->
  Forall (fun v => isna v = false) c ->
  dropna [name] df = inr df.
Proof.
  intros Hlen Hget Hna.
  pose proof (getitem_length _ _ _ Hlen Hget) as Hc.
  unfold dropna. simpl. rewrite Hget, <- Hc, (mask_none _ Hna), Hc.
  rewrite count_false_none, (drop_rows_columns _ _ Hlen).
  now destruct df.
Qed.

(** ** The table of fingerprints *)

Lemma tolist_lists (fps : list (list Z)) : tolist (map PList fps) = inr fps.
Proof. induction fps as [| l fps IH]; simpl; [reflexivity | now rewrite IH]. Qed.

Lemma width_uniform (data : list (list Z)) (n : nat) :
  Forall (fun r => length r = n) data -> data <> [] -> width data = n.
Proof.
  induction 1 as [| r data Hr Hdata IH]; intros Hne; [contradiction |].
  simpl. destruct data as [| r' data'].
  - simpl. lia.
  - rewrite IH by discriminate. lia.
Qed.

Lemma combine_map_same {A B C} (f : A -> B) (g : A -> C) (l : list A) :
  combine (map f l) (map g l) = map (fun x => (f x, g x)) l.
Proof. induction l as [| x l IH]; simpl; [reflexivity | now rewrite IH]. Qed.

Lemma DataFrame_of_rows_uniform (data : list (list Z)) (f : nat -> string)
  (n : nat) :
  Forall (fun r => length r = n) data ->
  DataFrame_of_rows data (map f (seq 0 n)) =
  inr {| index_len := length data;
         cols := map (fun j => (f j, column_of_rows data j)) (seq 0 n) |}.
Proof.
  intros Hdata. unfold DataFrame_of_rows.
  destruct data as [| r data].
  - now rewrite map_map.
  - rewrite (width_uniform _ _ Hdata) by discriminate.
    rewrite length_map, length_seq, Nat.eqb_refl.
    f_equal. f_equal.
    rewrite <- (map_id (seq 0 n)) at 1.
    rewrite combine_map_same, map_map. reflexivity.
Qed.

Lemma set_columns_relabel (idx n : nat) (f g : nat -> string)
  (c : nat -> Series) :
  set_columns {| index_len := idx;
                 cols := map (fun j => (f j, c j)) (seq 0 n) |}
              (map g (seq 0 n)) =
  inr {| index_len := idx; cols := map (fun j => (g j, c j)) (seq 0 n) |}.
Proof.
  unfold set_columns. simpl.
  rewrite !length_map, Nat.eqb_refl.
  rewrite combine_map_same, map_map. reflexivity.
Qed.

Lemma features_with_fingerprints (vm : DataFrame) (fps : list (list Z)) :
  getitem vm "Fingerprint" = inr (map PList fps) ->
  Forall (fun r => length r = 1024) fps ->
  features vm = ret (fp_frame fps).
Proof.
  intros Hget Hfps. unfold features.
  rewrite Hget, bind_lift_inr, tolist_lists, bind_lift_inr.
  rewrite (DataFrame_of_rows_uniform _ _ _ Hfps), bind_lift_inr.
  cbv beta iota delta [cols].
  rewrite length_map, length_seq.
  now rewrite set_columns_relabel.
Qed.

Lemma columns_fp_frame (fps : list (list Z)) : columns (fp_frame fps) = labels.
Proof. unfold columns, fp_frame, labels. cbn [cols]. now rewrite map_map. Qed.

Lemma map_fst_combine {A B} (l1 : list A) (l2 : list B) :
  length l1 = length l2 -> map fst (combine l1 l2) = l1.
Proof.
  revert l2. induction l1 as [| a l1 IH]; intros [| b l2] Hl;
    simpl in *; try discriminate; [reflexivity |].
  f_equal. apply IH. lia.
Qed.

Lemma DataFrame_of_rows_ncols (data : list (list Z)) (names : list string)
  (X : DataFrame) :
  DataFrame_of_rows data names = inr X -> length (cols X) = length names.
Proof.
  unfold DataFrame_of_rows. destruct data.
  - intros [= <-]. cbn [cols]. now rewrite length_map.
  - destruct (_ =? _)%nat; [| discriminate].
    intros [= <-]. cbn [cols].
    rewrite length_map, length_combine, length_seq. apply Nat.min_id.
Qed.

Lemma set_columns_columns (X X' : DataFrame) (names : list string) :
  set_columns X names = inr X' -> columns X' = names.
Proof.
  unfold set_columns. destruct (_ =? _)%nat eqn:El; [| discriminate].
  apply Nat.eqb_eq in El. intros [= <-]. unfold columns. simpl.
  rewrite map_map. simpl. now apply map_fst_combine.
Qed.

(** Every table [X] of lines 131-132 has the labels 0 to 1023. *)
Lemma features_columns (vm X : DataFrame) :
  outcome (features vm) = inr X -> columns X = labels.
Proof.
  unfold features.
  destruct (getitem vm "Fingerprint") as [e | fps];
    [discriminate | rewrite bind_lift_inr].
  destruct (tolist fps) as [e | data];
    [discriminate | rewrite bind_lift_inr].
  destruct (DataFrame_of_rows data _) as [e | X0] eqn:E0;
    [discriminate | rewrite bind_lift_inr].
  apply DataFrame_of_rows_ncols in E0.
  rewrite length_map, length_seq in E0. rewrite E0.
  unfold lift, outcome. intros H. now apply set_columns_columns in H.
Qed.

Lemma getitem_list_unique (df : DataFrame) (keys : list string) :
  NoDup (columns df) ->
  (forall k, In k keys -> In k (columns df)) ->
  getitem_list df keys =
  inr {| index_len := index_len df;
         cols := map (fun k => (k, column df k)) keys |}.
Proof.
  intros ND Hin. unfold getitem_list.
  now rewrite (getitem_cols_unique _ _ ND Hin).
Qed.

Lemma getitem_list_missing (df : DataFrame) (keys : list string) (k : string) :
  In k keys -> ~ In k (columns df) ->
  exists k', getitem_list df keys = inl (KeyError k') /\
             In k' keys /\ ~ In k' (columns df).
Proof.
  intros Hin Hk. destruct (getitem_cols_missing df keys k Hin Hk)
    as [k' [H1 H2]].
  exists k'. unfold getitem_list. now rewrite H1.
Qed.

(** ** The feature selector *)

(** C4: on every table of fingerprints the script builds (lines
    131-132) and every keep-list whose labels are all columns of it,
    the selection of line 133 returns a table with exactly the labels
    of the keep-list, in its order: each row has as many entries as
    the keep-list, the entry at position j being the one the row had
    under the j-th label. *)
Theorem selection_follows_keep_list (vm X : DataFrame) (keep : list string) :
  outcome (features vm) = inr X ->
  (forall k, In k keep -> In k (columns X)) ->
  exists R,
    getitem_list X keep = inr R /\
    columns R = keep /\
    index_len R = index_len X /\
    forall i, length (row R i) = length keep /\
              row R i = map (fun k => nth i (column X k) NA) keep.
Proof.
  intros HX Hkeep.
  assert (ND : NoDup (columns X)).
  { rewrite (features_columns _ _ HX). apply NoDup_labels. }
  eexists. split; [apply (getitem_list_unique _ _ ND Hkeep) |].
  unfold columns, row. simpl.
  split; [| split; [reflexivity |]].
  - rewrite map_map. simpl. apply map_id.
  - intros i. rewrite !map_map. simpl.
    split; [now rewrite length_map | reflexivity].
Qed.

Lemma selection_follows_keep_list_witness :
  let vm := {| index_len := 1;
               cols := [("Fingerprint", [PList (repeat 1%Z 1024)])] |} in
  let X := fp_frame [repeat 1%Z 1024] in
  let keep := ["7"; "0"; "1023"] in
  outcome (features vm) = inr X /\
  (forall k, In k keep -> In k (columns X)) /\
  exists R,
    getitem_list X keep = inr R /\
    columns R = keep /\
    index_len R = index_len X /\
    forall i, length (row R i) = length keep /\
              row R i = map (fun k => nth i (column X k) NA) keep.
Proof.
  intros vm X keep.
  assert (H1 : outcome (features vm) = inr X) by (vm_compute; reflexivity).
  assert (H2 : forall k, In k keep -> In k (columns X)).
  { intros k Hk. unfold X. rewrite columns_fp_frame.
    apply in_map_iff.
    destruct Hk as [<- | [<- | [<- | []]]];
      [exists 7%nat | exists 0%nat | exists 1023%nat];
      (split; [reflexivity | apply in_seq; lia]). }
  split; [exact H1 | split; [exact H2 |]].
  exact (selection_follows_keep_list vm X keep H1 H2).
Defined.

(** ** The check of the upload *)

Section Upload.

Variable Mol : Type.
Variable MolFromSmiles : string -> option Mol.
Variable GetFingerprint : MorganGenerator -> Mol -> list bool.
Variable model_predict : DataFrame -> exn + list float64.
Variable reduced_columns : list string.

Local Notation run :=
  (script MolFromSmiles GetFingerprint model_predict reduced_columns).

Lemma existsb_eqb_In (name : string) (l : list string) :
  existsb (String.eqb name) l = true <-> In name l.
Proof.
  rewrite existsb_exists. split.
  - intros [x [Hx E]]. apply String.eqb_eq in E. now subst x.
  - intros H. exists name. split; [exact H | apply String.eqb_refl].
Qed.

(** C6: an uploaded table without a column named SMILES (upper case
    only) gets the error message about the missing column and nothing
    else: no call of the SMILES parser, no call of the model. *)
Theorem missing_column_reported (uploaded_file : DataFrame) :
  ~ In "SMILES" (columns uploaded_file) ->
  run false (Some uploaded_file) =
    ([st_error (Literal missing_column_msg)], inr None) /\
  (forall arg, ~ In (MolFromSmiles_call arg)
                    (trace (run false (Some uploaded_file)))) /\
  (forall X, ~ In (predict_call X) (trace (run false (Some uploaded_file)))).
Proof.
  intros Hmiss.
  assert (E : existsb (String.eqb "SMILES") (columns uploaded_file) = false).
  { destruct (existsb _ _) eqn:E; [| reflexivity].
    apply existsb_eqb_In in E. contradiction. }
  assert (Happ : run false (Some uploaded_file) =
                 ([st_error (Literal missing_column_msg)], inr None)).
  { unfold script, load_input. rewrite E. reflexivity. }
  split; [exact Happ |].
  rewrite Happ. simpl.
  split; intros x [H | []]; discriminate H.
Qed.

End Upload.

Lemma missing_column_reported_witness :
  let uploaded_file :=
    {| index_len := 2;
       cols := [("smiles", [PStr "CCO"; PStr "CCN"]);
                ("name", [PStr "ethanol"; PStr "ethylamine"])] |} in
  ~ In "SMILES" (columns uploaded_file) /\
  Toy.run false (Some uploaded_file) =
    ([st_error (Literal missing_column_msg)], inr None) /\
  (forall arg, ~ In (MolFromSmiles_call arg)
                    (trace (Toy.run false (Some uploaded_file)))) /\
  (forall X, ~ In (predict_call X) (trace (Toy.run false (Some uploaded_file)))).
Proof.
  intros uploaded_file.
  assert (H : ~ In "SMILES" (columns uploaded_file)).
  { simpl. intros [H | [H | []]]; discriminate H. }
  split; [exact H |].
  exact (missing_column_reported Toy.Mol Toy.MolFromSmiles Toy.GetFingerprint
           Toy.model_predict Toy.reduced_columns uploaded_file H).
Defined.

(** ** The run of the pipeline *)

Section Pipeline.

Variable Mol : Type.
Variable MolFromSmiles : string -> option Mol.
Variable GetFingerprint : MorganGenerator -> Mol -> list bool.
Variable model_predict : DataFrame -> exn + list float64.
Variable reduced_columns : list string.

Local Notation encoder :=
  (compute_morgan_fingerprint MolFromSmiles GetFingerprint).
Local Notation encode := (encode MolFromSmiles GetFingerprint).
Local Notation fp_step := (fingerprint MolFromSmiles GetFingerprint).
Local Notation show_step := (predict_and_show model_predict reduced_columns).
Local Notation proc :=
  (process MolFromSmiles GetFingerprint model_predict reduced_columns).
Local Notation run :=
  (script MolFromSmiles GetFingerprint model_predict reduced_columns).

(** The encoder over a column of texts. *)
Lemma apply_strings (ss : list string) :
  apply encoder (map PStr ss) = (calls (map PStr ss), inr (map encode ss)).
Proof.
  induction ss as [| s ss IH]; [reflexivity |].
  simpl. rewrite encoder_str, bind_run, IH, bind_run.
  unfold trace, outcome, ret. simpl. now rewrite app_nil_r.
Qed.

(** The encoder returns over a whole column only if every cell is a
    text. *)
Lemma apply_returns (smiles : Series) (fps : list (list Z)) :
  outcome (apply encoder smiles) = inr fps ->
  exists ss, smiles = map PStr ss.
Proof.
  revert fps. induction smiles as [| v smiles IH]; intros fps H.
  - now exists [].
  - simpl in H. rewrite outcome_bind in H.
    destruct v as [s | z | x | l]; try discriminate H.
    rewrite encoder_str in H. simpl in H. rewrite outcome_bind in H.
    destruct (outcome (apply encoder smiles)) as [e | fps'] eqn:E;
      [discriminate H |].
    destruct (IH fps' eq_refl) as [ss Hss].
    exists (s :: ss). simpl. now rewrite Hss.
Qed.

(** Whatever the cells, the encoder over a column only calls the
    parser. *)
Lemma apply_trace (smiles : Series) (ev : event) :
  In ev (trace (apply encoder smiles)) -> exists v, ev = MolFromSmiles_call v.
Proof.
  induction smiles as [| v smiles IH]; simpl; [contradiction |].
  intros H. apply In_trace_bind in H. destruct H as [H | [fp [_ H]]].
  - exists v. unfold compute_morgan_fingerprint in H.
    apply In_trace_bind in H. destruct H as [H | [mol [_ H]]].
    + unfold Chem_MolFromSmiles in H. rewrite bind_emit in H.
      destruct H as [H | H]; [now symmetry |].
      destruct v; contradiction.
    + destruct mol; contradiction.
  - apply In_trace_bind in H. destruct H as [H | [fps [_ H]]];
      [now apply IH | contradiction].
Qed.

Lemma fingerprint_strings (df : DataFrame) (ss : list string) :
  Forall (fun c => length (snd c) = index_len df) (cols df) ->
  getitem df "SMILES" = inr (map PStr ss) ->
  fp_step df =
  (calls (map PStr ss), inr (with_fingerprints df (map encode ss))).
Proof.
  intros Hlen Hget. unfold fingerprint.
  rewrite Hget, bind_lift_inr, apply_strings, bind_run.
  rewrite setitem_same_length.
  - unfold lift, trace, outcome. simpl fst. simpl snd.
    now rewrite app_nil_r.
  - rewrite !length_map. rewrite <- (getitem_length _ _ _ Hlen Hget).
    now rewrite length_map.
Qed.

(** *** The table with its fingerprints *)

Lemma getitem_with_fingerprints (df : DataFrame) (fps : list (list Z)) :
  getitem (with_fingerprints df fps) "Fingerprint" = inr (map PList fps).
Proof.
  unfold getitem, with_fingerprints. cbn [cols].
  now rewrite find_set_col_same.
Qed.

Lemma getitem_with_fingerprints_other (df : DataFrame) (fps : list (list Z))
  (name : string) :
  name <> "Fingerprint" ->
  getitem (with_fingerprints df fps) name = getitem df name.
Proof.
  intros H. unfold getitem, with_fingerprints. cbn [cols].
  now rewrite find_set_col_other.
Qed.

Lemma length_with_fingerprints (df : DataFrame) (fps : list (list Z)) :
  Forall (fun c => length (snd c) = index_len df) (cols df) ->
  length fps = index_len df ->
  Forall (fun c => length (snd c) = index_len (with_fingerprints df fps))
         (cols (with_fingerprints df fps)).
Proof.
  intros Hlen Hfps. unfold with_fingerprints. cbn [cols index_len].
  apply Forall_length_set_col; [exact Hlen | now rewrite length_map].
Qed.

(** The filter of line 124 drops no row. *)
Lemma filter_valid_nothing (df : DataFrame) (fps : list (list Z)) :
  Forall (fun c => length (snd c) = index_len df) (cols df) ->
  length fps = index_len df ->
  filter_valid (with_fingerprints df fps) = ret (with_fingerprints df fps).
Proof.
  intros Hlen Hfps. unfold filter_valid.
  rewrite (dropna_nothing _ _ _ (length_with_fingerprints _ _ Hlen Hfps)
             (getitem_with_fingerprints df fps)); [reflexivity |].
  apply Forall_forall. intros v Hv. apply in_map_iff in Hv.
  now destruct Hv as [l [<- _]].
Qed.

Lemma empty_with_fingerprints (df : DataFrame) (fps : list (list Z)) :
  empty (with_fingerprints df fps) = (index_len df =? 0)%nat.
Proof.
  unfold empty, with_fingerprints. cbn [cols index_len].
  pose proof (find_set_col_same (cols df) "Fingerprint" (map PList fps)) as H.
  destruct (set_col (cols df) "Fingerprint" (map PList fps));
    [discriminate H | reflexivity].
Qed.

(** *** The table with its predictions *)

Lemma SMILES_not_Fingerprint : "SMILES" <> "Fingerprint".
Proof. discriminate. Qed.

Lemma SMILES_not_prediction : "SMILES" <> prediction_column.
Proof. discriminate. Qed.

Lemma getitem_with_predictions (df : DataFrame) (preds : list float64) :
  getitem (with_predictions df preds) prediction_column =
  inr (map PFloat preds).
Proof.
  unfold getitem, with_predictions. cbn [cols].
  now rewrite find_set_col_same.
Qed.

Lemma getitem_with_predictions_other (df : DataFrame) (preds : list float64)
  (name : string) :
  name <> prediction_column ->
  getitem (with_predictions df preds) name = getitem df name.
Proof.
  intros H. unfold getitem, with_predictions. cbn [cols].
  now rewrite find_set_col_other.
Qed.

(** Line 143 and line 151: the two columns of the result. *)
Lemma result_of_predictions (df : DataFrame) (fps : list (list Z))
  (preds : list float64) :
  NoDup (columns df) -> In "SMILES" (columns df) ->
  getitem_list (with_predictions (with_fingerprints df fps) preds)
               result_columns =
  inr (result_table df preds).
Proof.
  intros ND HS.
  set (vm := with_predictions (with_fingerprints df fps) preds).
  assert (NDvm : NoDup (columns vm)).
  { unfold vm, columns, with_predictions, with_fingerprints. cbn [cols].
    now apply NoDup_set_col, NoDup_set_col. }
  assert (Hin : forall k, In k result_columns -> In k (columns vm)).
  { intros k [<- | [<- | []]].
    - unfold vm, columns, with_predictions, with_fingerprints. cbn [cols].
      now apply In_columns_set_col, In_columns_set_col.
    - apply (getitem_columns vm _ (map PFloat preds)).
      apply getitem_with_predictions. }
  rewrite (getitem_list_unique vm result_columns NDvm Hin).
  unfold result_table, result_columns, column, vm. cbn [map index_len].
  rewrite getitem_with_predictions.
  rewrite getitem_with_predictions_other by apply SMILES_not_prediction.
  rewrite getitem_with_fingerprints_other by apply SMILES_not_Fingerprint.
  reflexivity.
Qed.

(** Lines 128-157 on a table with its fingerprints: the selection may
    fail, the model may fail, its answer may have the wrong length;
    otherwise everything is shown. *)
Lemma show_step_run (df : DataFrame) (fps : list (list Z)) :
  NoDup (columns df) -> In "SMILES" (columns df) ->
  Forall (fun r => length r = 1024) fps ->
  index_len df <> 0%nat ->
  show_step (with_fingerprints df fps) =
  match getitem_list (fp_frame fps) reduced_columns with
  | inl e => ([st_success "Moléculas processadas com sucesso!"], inl e)
  | inr X_reduced =>
      match model_predict X_reduced with
      | inl e => (firstn 3 (shown X_reduced df df), inl e)
      | inr preds =>
          if (length preds =? index_len df)%nat then
            (shown X_reduced
                   (with_predictions (with_fingerprints df fps) preds)
                   (result_table df preds),
             inr (with_predictions (with_fingerprints df fps) preds))
          else (firstn 3 (shown X_reduced df df),
                inl (ValueError (index_len df) (length preds)))
      end
  end.
Proof.
  intros ND HS Hfps Hn. unfold predict_and_show.
  rewrite emit_then.
  rewrite (features_with_fingerprints _ fps
             (getitem_with_fingerprints df fps) Hfps), bind_ret_l.
  destruct (getitem_list (fp_frame fps) reduced_columns) as [e | Xr];
    [reflexivity |].
  rewrite bind_lift_inr, emit_then. unfold predict. rewrite emit_then.
  rewrite bind_prepend.
  destruct (model_predict Xr) as [e | preds]; [reflexivity |].
  rewrite bind_lift_inr.
  destruct (length preds =? index_len df)%nat eqn:El.
  - apply Nat.eqb_eq in El.
    rewrite setitem_same_length
      by (rewrite length_map; exact El).
    rewrite bind_lift_inr.
    change {| index_len := index_len (with_fingerprints df fps);
              cols := set_col (cols (with_fingerprints df fps))
                        prediction_column (map PFloat preds) |}
      with (with_predictions (with_fingerprints df fps) preds).
    rewrite !emit_then, (result_of_predictions df fps preds ND HS).
    rewrite bind_lift_inr, !emit_then, bind_lift_inr, emit_then.
    reflexivity.
  - apply Nat.eqb_neq in El.
    rewrite setitem_wrong_length;
      [now rewrite length_map | exact Hn | now rewrite length_map].
Qed.

(** *** The body of the [try] *)

(** On a column of texts: the parser is called on each, then either
    the table has no row and that is reported, or lines 128-157 run on
    the whole table. *)
Lemma proc_strings (df : DataFrame) (ss : list string) :
  wf df ->
  getitem df "SMILES" = inr (map PStr ss) ->
  proc df =
  prepend (calls (map PStr ss))
    (if (index_len df =? 0)%nat
     then ([st_error (Literal no_valid_molecule_msg)], inr None)
     else valid_molecules <- show_step (with_fingerprints df (map encode ss)) ;;
          ret (Some valid_molecules)).
Proof.
  intros [ND Hlen] Hget. unfold process.
  rewrite (fingerprint_strings df ss Hlen Hget), bind_returned.
  assert (Hn : length (map encode ss) = index_len df).
  { rewrite <- (getitem_length _ _ _ Hlen Hget). now rewrite !length_map. }
  rewrite (filter_valid_nothing df _ Hlen Hn), bind_ret_l.
  rewrite empty_with_fingerprints.
  destruct (index_len df =? 0)%nat; reflexivity.
Qed.

(** On a column with a cell that is not a text: an exception, after
    calls of the parser only. *)
Lemma proc_not_strings (df : DataFrame) (smiles : Series) :
  getitem df "SMILES" = inr smiles ->
  (forall ss, smiles <> map PStr ss) ->
  exists e, outcome (proc df) = inl e /\
            forall ev, In ev (trace (proc df)) ->
                       exists v, ev = MolFromSmiles_call v.
Proof.
  intros Hget Hns. unfold process, fingerprint.
  rewrite Hget, bind_lift_inr.
  destruct (outcome (apply encoder smiles)) as [e | fps] eqn:E.
  - exists e. rewrite (bind_raised _ _ e E).
    rewrite (bind_raised (_, inl e) _ e eq_refl). split; [reflexivity |].
    intros ev Hev. now apply apply_trace in Hev.
  - apply apply_returns in E. destruct E as [ss Hss].
    now destruct (Hns ss).
Qed.

(** A column is a column of texts, or has a cell that is not one. *)
Lemma strings_or_not (smiles : Series) :
  (exists ss, smiles = map PStr ss) \/ (forall ss, smiles <> map PStr ss).
Proof.
  induction smiles as [| v smiles [[ss IH] | IH]].
  - left. now exists [].
  - destruct v as [s | z | x | l];
      try (right; intros [| s' ss']; discriminate).
    left. exists (s :: ss). simpl. now rewrite IH.
  - right. intros [| s ss]; [discriminate |].
    simpl. intros [= _ H]. now apply (IH ss).
Qed.

(** *** The whole run *)

Lemma run_upload (df : DataFrame) :
  In "SMILES" (columns df) ->
  run false (Some df) =
  prepend (preview df)
    (try_except (proc df) handler).
Proof.
  intros HS. unfold script, load_input.
  apply existsb_eqb_In in HS. rewrite HS. cbn [negb].
  rewrite !emit_then, !bind_prepend, bind_ret_l.
  rewrite !prepend_prepend. reflexivity.
Qed.

(** *** The rows of predictions of a run *)

Lemma downloads_app (t t' : list event) :
  downloads (t ++ t') = downloads t ++ downloads t'.
Proof. apply flat_map_app. Qed.

Lemma downloads_calls (smiles : Series) : downloads (calls smiles) = [].
Proof. induction smiles as [| v smiles IH]; [reflexivity | exact IH]. Qed.

Lemma downloads_shown (X_reduced vm result : DataFrame) :
  downloads (shown X_reduced vm result) = [to_csv result].
Proof. reflexivity. Qed.

Lemma length_rows (df : DataFrame) : length (rows df) = index_len df.
Proof. unfold rows. now rewrite length_map, length_seq. Qed.

(** *** Columns of the table of fingerprints *)

Lemma find_labelled (c : nat -> Series) (l : list nat) (j : nat) :
  In j l ->
  find (has_label (str j)) (map (fun i => (str i, c i)) l) =
  Some (str j, c j).
Proof.
  induction l as [| i l IH]; intros Hj; [contradiction |].
  simpl. destruct (has_label (str j) (str i, c i)) eqn:E.
  - apply has_label_true in E. simpl in E. apply str_inj in E. now subst i.
  - destruct Hj as [-> | Hj]; [| now apply IH].
    apply has_label_false in E. now destruct E.
Qed.

Lemma column_fp_frame (fps : list (list Z)) (j : nat) :
  (j < 1024)%nat -> column (fp_frame fps) (str j) = column_of_rows fps j.
Proof.
  intros Hj. unfold column, getitem, fp_frame. cbn [cols].
  rewrite find_labelled; [reflexivity | apply in_seq; lia].
Qed.


Lemma column_selected (df : DataFrame) (keys : list string) (k : string)
  (n : nat) :
  In k keys ->
  column {| index_len := n;
            cols := map (fun k => (k, column df k)) keys |} k =
  column df k.
Proof.
  intros Hk. unfold column at 1, getitem. cbn [cols].
  induction keys as [| k0 keys IH]; [contradiction |].
  simpl. destruct (has_label k (k0, column df k0)) eqn:E.
  - apply has_label_true in E. simpl in E. now subst k0.
  - destruct Hk as [-> | Hk]; [| now apply IH].
    apply has_label_false in E. now destruct E.
Qed.

(** *** Unparseable molecules *)




Lemma selection_of_labels (fps : list (list Z)) (keys : list string) :
  (forall k, In k keys -> In k labels) ->
  getitem_list (fp_frame fps) keys =
  inr {| index_len := length fps;
         cols := map (fun k => (k, column (fp_frame fps) k)) keys |}.
Proof.
  intros Hkeys. apply getitem_list_unique.
  - rewrite columns_fp_frame. apply NoDup_labels.
  - now rewrite columns_fp_frame.
Qed.


(** *** Every way the body of the [try] can end *)

(** A generator built for [fpSize] bits returns that many. *)
Hypothesis GetFingerprint_size :
  forall g mol, length (GetFingerprint g mol) = fpSize g.

Lemma Forall_length_encode (ss : list string) :
  Forall (fun r : list Z => length r = 1024) (map encode ss).
Proof.
  apply Forall_forall. intros r Hr. apply in_map_iff in Hr.
  destruct Hr as [s [<- _]].
  now apply encode_length.
Qed.

Lemma only_calls (t : list event) :
  (forall ev, In ev t -> exists v, ev = MolFromSmiles_call v) ->
  downloads t = [] /\ ~ In no_valid_molecule t /\
  forall X, ~ In (predict_call X) t.
Proof.
  induction t as [| ev t IH]; intros H.
  - repeat split; intros; intros [].
  - destruct (H ev (or_introl eq_refl)) as [v ->].
    destruct IH as [H1 [H2 H3]]; [intros ev' Hev'; apply H; now right |].
    repeat split; [exact H1 | |].
    + intros [E | E]; [discriminate E | contradiction].
    + intros X [E | E]; [discriminate E | now apply (H3 X)].
Qed.

Lemma calls_only_calls (smiles : Series) (ev : event) :
  In ev (calls smiles) -> exists v, ev = MolFromSmiles_call v.
Proof.
  unfold calls. intros H. apply in_map_iff in H.
  destruct H as [v [<- _]]. now exists v.
Qed.

(** The body of the [try] under its handler ends in one of three
    ways: an exception, reported by the handler; a table without
    rows; or predictions for every row. *)
Lemma attempt_cases (df : DataFrame) :
  wf df -> In "SMILES" (columns df) ->
  (exists e t,
      try_except (proc df) handler = (t ++ [caught e], inr None) /\
      downloads t = [] /\ ~ In no_valid_molecule t /\
      index_len df <> 0%nat)
  \/ (index_len df = 0%nat /\
      try_except (proc df) handler = ([no_valid_molecule], inr None))
  \/ (exists ss preds X_reduced,
        getitem df "SMILES" = inr (map PStr ss) /\
        index_len df <> 0%nat /\
        getitem_list (fp_frame (map encode ss)) reduced_columns =
          inr X_reduced /\
        model_predict X_reduced = inr preds /\
        length preds = index_len df /\
        try_except (proc df) handler =
        prepend (calls (map PStr ss))
          (shown X_reduced
                 (with_predictions (with_fingerprints df (map encode ss))
                                   preds)
                 (result_table df preds),
           inr (Some (with_predictions
                        (with_fingerprints df (map encode ss)) preds)))).
Proof.
  intros Hwf HS. destruct (getitem_present df "SMILES" HS) as [smiles Hget].
  assert (HN : length smiles = index_len df)
    by exact (getitem_length _ _ _ (proj2 Hwf) Hget).
  destruct (strings_or_not smiles) as [[ss ->] | Hns].
  - rewrite (proc_strings df ss Hwf Hget), try_except_prepend.
    destruct (index_len df =? 0)%nat eqn:E0.
    + apply Nat.eqb_eq in E0. right. left. split; [exact E0 |].
      rewrite E0 in HN. destruct ss; [reflexivity | discriminate HN].
    + apply Nat.eqb_neq in E0.
      rewrite (show_step_run df _ (proj1 Hwf) HS (Forall_length_encode ss) E0).
      destruct (getitem_list (fp_frame (map encode ss)) reduced_columns)
        as [e | Xr] eqn:EX.
      { left. exists e, (calls (map PStr ss)
                          ++ [st_success "Moléculas processadas com sucesso!"]).
        split; [| split; [| split; [| exact E0]]].
        - unfold prepend. cbn. now rewrite <- app_assoc.
        - rewrite downloads_app, downloads_calls. reflexivity.
        - intros H. apply in_app_iff in H. destruct H as [H | [H | []]].
          + apply calls_only_calls in H. destruct H as [v H]. discriminate H.
          + discriminate H. }
      destruct (model_predict Xr) as [e | preds] eqn:EP.
      { left. exists e, (calls (map PStr ss) ++ firstn 3 (shown Xr df df)).
        split; [| split; [| split; [| exact E0]]].
        - unfold prepend. cbn. now rewrite <- app_assoc.
        - rewrite downloads_app, downloads_calls. reflexivity.
        - intros H. apply in_app_iff in H. destruct H as [H | H].
          + apply calls_only_calls in H. destruct H as [v H]. discriminate H.
          + cbn in H. destruct H as [H | [H | [H | []]]]; discriminate H. }
      destruct (length preds =? index_len df)%nat eqn:EL.
      { apply Nat.eqb_eq in EL. right. right. exists ss, preds, Xr.
        repeat split; assumption. }
      { left. exists (ValueError (index_len df) (length preds)),
                     (calls (map PStr ss) ++ firstn 3 (shown Xr df df)).
        split; [| split; [| split; [| exact E0]]].
        - unfold prepend. cbn. now rewrite <- app_assoc.
        - rewrite downloads_app, downloads_calls. reflexivity.
        - intros H. apply in_app_iff in H. destruct H as [H | H].
          + apply calls_only_calls in H. destruct H as [v H]. discriminate H.
          + cbn in H. destruct H as [H | [H | [H | []]]]; discriminate H. }
  - left. destruct (proc_not_strings df smiles Hget Hns) as [e [He Ht]].
    exists e, (trace (proc df)).
    destruct (only_calls _ Ht) as [H1 [H2 _]].
    split; [| split; [exact H1 | split; [exact H2 |]]].
    + rewrite (M_eta (proc df)) at 1. rewrite He. reflexivity.
    + intros H0. rewrite H0 in HN. destruct smiles; [| discriminate HN].
      now apply (Hns []).
Qed.

(** *** Loading the table *)

Lemma wf_example_data : wf example_data.
Proof.
  split.
  - repeat constructor. intros [].
  - repeat constructor.
Qed.

Lemma run_missing_column (uploaded_file : DataFrame) :
  ~ In "SMILES" (columns uploaded_file) ->
  run false (Some uploaded_file) =
  ([st_error (Literal missing_column_msg)], inr None).
Proof.
  intros Hmiss. unfold script, load_input.
  destruct (existsb _ _) eqn:E; [| reflexivity].
  apply existsb_eqb_In in E. contradiction.
Qed.

(** Lines 98-115 show no download and give no table, or a table with
    a SMILES column on which the [try] runs. *)
Lemma load_cases (use_example : bool) (uploaded_file : option DataFrame) :
  (forall df, uploaded_file = Some df -> wf df) ->
  downloads (trace (load_input use_example uploaded_file)) = [] /\
  (run use_example uploaded_file =
     (trace (load_input use_example uploaded_file), inr None)
   \/ exists df,
        outcome (load_input use_example uploaded_file) = inr (Some df) /\
        wf df /\ In "SMILES" (columns df) /\
        run use_example uploaded_file =
        prepend (trace (load_input use_example uploaded_file))
                (try_except (proc df) handler)).
Proof.
  intros Hwf. destruct use_example.
  - split; [reflexivity |]. right. exists example_data.
    split; [reflexivity | split; [apply wf_example_data |]].
    split; [now left |].
    unfold script, load_input, copy.
    rewrite !emit_then, !bind_prepend, bind_ret_l, !prepend_prepend.
    reflexivity.
  - destruct uploaded_file as [df |]; [| split; [reflexivity | now left]].
    destruct (existsb (String.eqb "SMILES") (columns df)) eqn:E.
    + assert (HS : In "SMILES" (columns df)) by now apply existsb_eqb_In.
      unfold load_input. rewrite E. split; [reflexivity |].
      right. exists df.
      split; [reflexivity | split; [now apply Hwf | split; [exact HS |]]].
      apply (run_upload df HS).
    + unfold script, load_input. rewrite E.
      split; [reflexivity | now left].
Qed.

Lemma In_downloads (t : list event) (label : string) (data : csv_file)
  (file_name mime : string) :
  In (st_download_button label data file_name mime) t -> In data (downloads t).
Proof.
  intros H. unfold downloads. apply in_flat_map.
  exists (st_download_button label data file_name mime).
  split; [exact H | now left].
Qed.

Lemma nth_rows (df : DataFrame) (i : nat) :
  (i < index_len df)%nat -> nth i (rows df) [] = row df i.
Proof.
  intros Hi. unfold rows.
  rewrite (nth_indep _ [] (row df 0)) by now rewrite length_map, length_seq.
  rewrite map_nth, seq_nth by exact Hi. reflexivity.
Qed.

Lemma column_with_fingerprints_SMILES (df : DataFrame) (fps : list (list Z)) :
  column (with_fingerprints df fps) "SMILES" = column df "SMILES".
Proof.
  unfold column.
  now rewrite getitem_with_fingerprints_other by apply SMILES_not_Fingerprint.
Qed.

(** ** The result offered for download *)

(** C7: whenever a run offers a file for download, the file has
    exactly the two columns SMILES and Predição_Bioatividade and one
    record per row of the table left by the filter of line 124, in
    the order of these rows: record i holds the SMILES of row i and
    the i-th prediction. *)
Theorem download_contract (use_example : bool)
  (uploaded_file : option DataFrame) (label : string) (data : csv_file)
  (file_name mime : string) :
  (forall df, uploaded_file = Some df -> wf df) ->
  In (st_download_button label data file_name mime)
     (trace (run use_example uploaded_file)) ->
  exists molecules_df with_fp valid_molecules preds,
    outcome (load_input use_example uploaded_file) = inr (Some molecules_df) /\
    outcome (fp_step molecules_df) = inr with_fp /\
    outcome (filter_valid with_fp) = inr valid_molecules /\
    csv_header data = ["SMILES"; prediction_column] /\
    length (csv_records data) = index_len valid_molecules /\
    length preds = index_len valid_molecules /\
    forall i, (i < index_len valid_molecules)%nat ->
      nth i (csv_records data) [] =
      [nth i (column valid_molecules "SMILES") NA; PFloat (nth i preds NaN)].
Proof.
  intros Hwf Hin. apply In_downloads in Hin.
  destruct (load_cases use_example uploaded_file Hwf) as [Hload [Hrun | Hrun]].
  - rewrite Hrun in Hin. cbn [trace fst] in Hin.
    fold (trace (load_input use_example uploaded_file)) in Hin.
    rewrite Hload in Hin. contradiction.
  - destruct Hrun as [df [Hdf [Hwfdf [HS Hrun]]]].
    rewrite Hrun, trace_prepend, downloads_app, Hload in Hin.
    destruct (attempt_cases df Hwfdf HS)
      as [[e [t [Ht [Hd _]]]] | [[_ Ht] | Hok]].
    + rewrite Ht in Hin. cbn [trace fst app] in Hin.
      rewrite downloads_app, Hd in Hin. destruct Hin.
    + rewrite Ht in Hin. destruct Hin.
    + destruct Hok as [ss [preds [Xr [Hget [Hn [_ [_ [HL Ht]]]]]]]].
      rewrite Ht, trace_prepend in Hin. cbn [trace fst app] in Hin.
      rewrite downloads_app, downloads_calls, downloads_shown in Hin.
      destruct Hin as [<- | []].
      exists df, (with_fingerprints df (map encode ss)),
             (with_fingerprints df (map encode ss)), preds.
      assert (Hlen : length (map encode ss) = index_len df).
      { rewrite <- (getitem_length _ _ _ (proj2 Hwfdf) Hget).
        now rewrite !length_map. }
      split; [exact Hdf |].
      split; [now rewrite (fingerprint_strings df ss (proj2 Hwfdf) Hget) |].
      split; [now rewrite (filter_valid_nothing df _ (proj2 Hwfdf) Hlen) |].
      split; [reflexivity |].
      split; [exact (length_rows (result_table df preds)) |].
      split; [exact HL |].
      intros i Hi. cbn [to_csv csv_records].
      rewrite nth_rows by exact Hi.
      rewrite column_with_fingerprints_SMILES.
      unfold row, result_table. cbn [cols map snd].
      now rewrite <- (map_nth PFloat).
Qed.

(** ** A label of the reduced columns that is no column *)

(** C5: when the list of reduced columns holds a label that is no
    column of the table of fingerprints, the selection of line 133
    raises a [KeyError]; the run of an uploaded table (of texts, not
    empty) then ends in the handler of line 158, which reports it: the
    model is not called and no result is offered. *)
Theorem schema_mismatch_caught (uploaded : DataFrame) (ss : list string)
  (k : string) :
  wf uploaded ->
  getitem uploaded "SMILES" = inr (map PStr ss) ->
  index_len uploaded <> 0%nat ->
  In k reduced_columns -> ~ In k labels ->
  exists k',
    In k' reduced_columns /\ ~ In k' labels /\
    getitem_list (fp_frame (map encode ss)) reduced_columns =
      inl (KeyError k') /\
    run false (Some uploaded) =
      prepend (preview uploaded)
        (prepend (calls (map PStr ss))
           ([st_success "Moléculas processadas com sucesso!";
             caught (KeyError k')], inr None)) /\
    (forall X, ~ In (predict_call X) (trace (run false (Some uploaded)))) /\
    downloads (trace (run false (Some uploaded))) = [].
Proof.
  intros Hwf Hget Hn Hk Hnot.
  pose proof (getitem_columns _ _ _ Hget) as HS.
  destruct (getitem_list_missing (fp_frame (map encode ss)) reduced_columns k Hk)
    as [k' [Hsel [Hk' Hnot']]]; [now rewrite columns_fp_frame |].
  rewrite columns_fp_frame in Hnot'.
  exists k'. split; [exact Hk' | split; [exact Hnot' | split; [exact Hsel |]]].
  assert (Hrun : run false (Some uploaded) =
      prepend (preview uploaded)
        (prepend (calls (map PStr ss))
           ([st_success "Moléculas processadas com sucesso!";
             caught (KeyError k')], inr None))).
  { rewrite (run_upload uploaded HS), (proc_strings uploaded ss Hwf Hget).
    apply Nat.eqb_neq in Hn. rewrite Hn. apply Nat.eqb_neq in Hn.
    rewrite (show_step_run uploaded _ (proj1 Hwf) HS
               (Forall_length_encode ss) Hn), Hsel.
    now rewrite try_except_prepend. }
  split; [exact Hrun | rewrite Hrun, !trace_prepend; split].
  - intros X H. apply in_app_iff in H. destruct H as [H | H].
    + destruct H as [H | [H | [H | []]]]; discriminate H.
    + apply in_app_iff in H. destruct H as [H | H].
      * apply calls_only_calls in H. destruct H as [v H]. discriminate H.
      * destruct H as [H | [H | []]]; discriminate H.
  - now rewrite !downloads_app, downloads_calls.
Qed.

(** ** The filter that filters nothing *)




(** ** The other columns of an upload *)

Lemma In_columns_set_col_iff (cs : list (string * Series)) (name k : string)
  (v : Series) :
  In k (map fst (set_col cs name v)) <-> In k (map fst cs) \/ k = name.
Proof.
  rewrite columns_set_col.
  destruct (existsb (has_label name) cs) eqn:E.
  - apply existsb_has_label in E. split; [now left |].
    intros [H | ->]; assumption.
  - rewrite in_app_iff. simpl. split.
    + intros [H | [H | []]]; [now left | now right].
    + intros [H | ->]; [now left | right; now left].
Qed.

(** ** Every run, written out *)

(** On a table of texts the run is: the preview, the parser on each
    row, and one of the endings. *)
Lemma run_strings (df : DataFrame) (ss : list string) :
  wf df ->
  getitem df "SMILES" = inr (map PStr ss) ->
  run false (Some df) =
  prepend (preview df)
    (prepend (calls (map PStr ss))
       (ending model_predict reduced_columns df (map encode ss))).
Proof.
  intros Hwf Hget.
  pose proof (getitem_columns _ _ _ Hget) as HS.
  rewrite (run_upload df HS), (proc_strings df ss Hwf Hget).
  rewrite try_except_prepend. unfold ending.
  destruct (index_len df =? 0)%nat eqn:E0; [reflexivity |].
  apply Nat.eqb_neq in E0.
  rewrite (show_step_run df _ (proj1 Hwf) HS (Forall_length_encode ss) E0).
  destruct (getitem_list (fp_frame (map encode ss)) reduced_columns)
    as [e | Xr]; [reflexivity |].
  destruct (model_predict Xr) as [e | preds]; [reflexivity |].
  destruct (length preds =? index_len df)%nat; reflexivity.
Qed.

(** The parser over a column whose first cell that is no text is [v]:
    it is called up to that cell and raises there. *)
Lemma apply_bad_cell (ss : list string) (v : pyval) (rest : Series) :
  (forall s, v <> PStr s) ->
  apply encoder (map PStr ss ++ v :: rest) =
  (calls (map PStr ss ++ [v]), inl (TypeError v)).
Proof.
  intros Hv. induction ss as [| s ss IH].
  - simpl. rewrite (encoder_not_str _ _ _ v Hv). reflexivity.
  - simpl. rewrite encoder_str, bind_returned, IH. reflexivity.
Qed.

Lemma run_bad_cell (df : DataFrame) (ss : list string) (v : pyval)
  (rest : Series) :
  getitem df "SMILES" = inr (map PStr ss ++ v :: rest) ->
  (forall s, v <> PStr s) ->
  run false (Some df) =
  prepend (preview df)
    (calls (map PStr ss ++ [v]) ++ [caught (TypeError v)], inr None).
Proof.
  intros Hget Hv.
  pose proof (getitem_columns _ _ _ Hget) as HS.
  rewrite (run_upload df HS). unfold process, fingerprint.
  rewrite Hget, bind_lift_inr, (apply_bad_cell ss v rest Hv).
  reflexivity.
Qed.

(** A column is a column of texts, or has a first cell that is not
    one. *)
Lemma series_split (smiles : Series) :
  (exists ss, smiles = map PStr ss) \/
  (exists ss v rest, smiles = map PStr ss ++ v :: rest /\
                     forall s, v <> PStr s).
Proof.
  induction smiles as [| v smiles IH]; [left; now exists [] |].
  destruct v as [s | z | x | l].
  - destruct IH as [[ss ->] | [ss [v [rest [-> Hv]]]]].
    + left. now exists (s :: ss).
    + right. exists (s :: ss), v, rest. now split.
  - right. exists [], (PInt z), smiles.
    split; [reflexivity | intros s H; discriminate H].
  - right. exists [], (PFloat x), smiles.
    split; [reflexivity | intros s H; discriminate H].
  - right. exists [], (PList l), smiles.
    split; [reflexivity | intros s H; discriminate H].
Qed.

Lemma encode_bits (s : string) (z : Z) :
  In z (encode s) -> z = 0%Z \/ z = 1%Z.
Proof.
  unfold encode. destruct (MolFromSmiles s).
  - unfold list_of_bits. intros H. apply in_map_iff in H.
    destruct H as [b [<- _]]. destruct b; [now right | now left].
  - intros H. apply repeat_spec in H. now left.
Qed.

(** A run on an uploaded table with a SMILES column is one of two. *)
Lemma upload_cases (df : DataFrame) :
  wf df -> In "SMILES" (columns df) ->
  (exists ss,
      getitem df "SMILES" = inr (map PStr ss) /\
      length ss = index_len df /\
      run false (Some df) =
      prepend (preview df)
        (prepend (calls (map PStr ss))
           (ending model_predict reduced_columns df (map encode ss))))
  \/ (exists ss v rest,
        getitem df "SMILES" = inr (map PStr ss ++ v :: rest) /\
        (forall s, v <> PStr s) /\
        index_len df <> 0%nat /\
        run false (Some df) =
        prepend (preview df)
          (calls (map PStr ss ++ [v]) ++ [caught (TypeError v)], inr None)).
Proof.
  intros Hwf HS. destruct (getitem_present df "SMILES" HS) as [smiles Hget].
  pose proof (getitem_length _ _ _ (proj2 Hwf) Hget) as HN.
  destruct (series_split smiles) as [[ss ->] | [ss [v [rest [-> Hv]]]]].
  - left. exists ss. split; [exact Hget | split].
    + now rewrite length_map in HN.
    + now apply run_strings.
  - right. exists ss, v, rest. split; [exact Hget | split; [exact Hv | split]].
    + rewrite <- HN, length_app. simpl. lia.
    + exact (run_bad_cell df ss v rest Hget Hv).
Qed.

Lemma getitem_list_selected (fps : list (list Z)) (keys : list string)
  (X : DataFrame) :
  getitem_list (fp_frame fps) keys = inr X ->
  (forall k, In k keys -> In k labels) /\ X = selected fps keys.
Proof.
  intros H.
  assert (Hkeys : forall k, In k keys -> In k labels).
  { intros k Hk. destruct (in_dec string_dec k labels) as [Hin | Hout];
      [exact Hin |].
    rewrite <- (columns_fp_frame fps) in Hout.
    destruct (getitem_list_missing _ _ _ Hk Hout) as [k' [E _]].
    rewrite E in H. discriminate H. }
  split; [exact Hkeys |].
  rewrite (selection_of_labels fps keys Hkeys) in H. now injection H as <-.
Qed.

(** *** What the parts of a trace call *)

Lemma parser_calls_app (t t' : list event) :
  parser_calls (t ++ t') = parser_calls t ++ parser_calls t'.
Proof. apply flat_map_app. Qed.

Lemma parser_calls_calls (smiles : Series) :
  parser_calls (calls smiles) = smiles.
Proof.
  induction smiles as [| v smiles IH]; [reflexivity |].
  simpl. now rewrite IH.
Qed.

Lemma model_calls_app (t t' : list event) :
  model_calls (t ++ t') = model_calls t ++ model_calls t'.
Proof. apply flat_map_app. Qed.

Lemma model_calls_calls (smiles : Series) : model_calls (calls smiles) = [].
Proof. induction smiles as [| v smiles IH]; [reflexivity | exact IH]. Qed.

Lemma errors_app (t t' : list event) :
  errors (t ++ t') = errors t ++ errors t'.
Proof. apply flat_map_app. Qed.

Lemma errors_calls (smiles : Series) : errors (calls smiles) = [].
Proof. induction smiles as [| v smiles IH]; [reflexivity | exact IH]. Qed.

Lemma In_errors (t : list event) (msg : message) :
  In (st_error msg) t -> In msg (errors t).
Proof.
  intros H. unfold errors. apply in_flat_map.
  exists (st_error msg). split; [exact H | now left].
Qed.

Lemma In_model_calls (t : list event) (X : DataFrame) :
  In (predict_call X) t -> In X (model_calls t).
Proof.
  intros H. unfold model_calls. apply in_flat_map.
  exists (predict_call X). split; [exact H | now left].
Qed.

Lemma parser_calls_ending (df : DataFrame) (fps : list (list Z)) :
  parser_calls (trace (ending model_predict reduced_columns df fps)) = [].
Proof.
  unfold ending. destruct (index_len df =? 0)%nat; [reflexivity |].
  destruct (getitem_list (fp_frame fps) reduced_columns) as [e | Xr];
    [reflexivity |].
  destruct (model_predict Xr) as [e | preds]; [reflexivity |].
  destruct (length preds =? index_len df)%nat; reflexivity.
Qed.

(** The model is called in an ending at most once, on the selection,
    and only when the table has rows. *)
Lemma model_calls_ending (df : DataFrame) (fps : list (list Z)) :
  model_calls (trace (ending model_predict reduced_columns df fps)) = [] \/
  (index_len df <> 0%nat /\
   (forall k, In k reduced_columns -> In k labels) /\
   model_calls (trace (ending model_predict reduced_columns df fps)) =
   [selected fps reduced_columns]).
Proof.
  unfold ending. destruct (index_len df =? 0)%nat eqn:E0; [now left |].
  apply Nat.eqb_neq in E0.
  destruct (getitem_list (fp_frame fps) reduced_columns) as [e | Xr] eqn:EX;
    [now left |].
  apply getitem_list_selected in EX. destruct EX as [Hkeys ->].
  right. split; [exact E0 | split; [exact Hkeys |]].
  destruct (model_predict _) as [e | preds]; [reflexivity |].
  destruct (length preds =? index_len df)%nat; reflexivity.
Qed.

(** ** Further properties of a run *)

(** X2: when the SMILES column of an upload has a cell that is not a
    text, the parser is called on the rows before it and on it, and no
    further; the run then reports the [TypeError] of that cell and
    ends: the model is not called and nothing is offered for download,
    not even for the rows that parsed. *)
Theorem bad_cell_stops_run (uploaded : DataFrame) (ss : list string)
  (v : pyval) (rest : Series) :
  getitem uploaded "SMILES" = inr (map PStr ss ++ v :: rest) ->
  (forall s, v <> PStr s) ->
  run false (Some uploaded) =
    prepend (preview uploaded)
      (calls (map PStr ss ++ [v]) ++ [caught (TypeError v)], inr None) /\
  parser_calls (trace (run false (Some uploaded))) = map PStr ss ++ [v] /\
  model_calls (trace (run false (Some uploaded))) = [] /\
  downloads (trace (run false (Some uploaded))) = [].
Proof.
  intros Hget Hv. rewrite (run_bad_cell uploaded ss v rest Hget Hv).
  split; [reflexivity |]. rewrite trace_prepend. cbn [trace fst].
  rewrite !parser_calls_app, parser_calls_calls.
  rewrite !model_calls_app, model_calls_calls.
  rewrite !downloads_app, downloads_calls.
  split; [| split; reflexivity].
  cbn. now rewrite app_nil_r.
Qed.

(** X3: on an uploaded table whose SMILES are all texts, the parser is
    called exactly once per row, in the order of the rows, whatever
    happens afterwards. *)
Theorem parser_once_per_row (uploaded : DataFrame) (ss : list string) :
  wf uploaded ->
  getitem uploaded "SMILES" = inr (map PStr ss) ->
  parser_calls (trace (run false (Some uploaded))) = map PStr ss.
Proof.
  intros Hwf Hget. rewrite (run_strings uploaded ss Hwf Hget).
  rewrite !trace_prepend, !parser_calls_app, parser_calls_calls.
  rewrite parser_calls_ending. cbn. now rewrite app_nil_r.
Qed.

Lemma column_of_rows_cell (fps : list (list Z)) (j : nat) (v : pyval) :
  Forall (fun r => length r = 1024) fps -> (j < 1024)%nat ->
  In v (column_of_rows fps j) ->
  exists r z, In r fps /\ In z r /\ v = PInt z.
Proof.
  intros Hfps Hj Hv. unfold column_of_rows in Hv. apply in_map_iff in Hv.
  destruct Hv as [r [Hv Hr]]. exists r.
  rewrite Forall_forall in Hfps. pose proof (Hfps r Hr) as Hlen.
  destruct (nth_error r j) as [z |] eqn:E.
  - exists z. apply nth_error_In in E. now repeat split.
  - apply nth_error_None in E. lia.
Qed.

(** X4: in the run of an uploaded table the model is called at most
    once.  When it is called, the table has rows, the parser has been
    called on every one of them, and the model gets one table with as
    many rows as the upload, with the reduced columns as its columns,
    in their order, and cells that are all 0 or 1. *)
Theorem model_called_at_most_once (uploaded : DataFrame) :
  wf uploaded -> In "SMILES" (columns uploaded) ->
  model_calls (trace (run false (Some uploaded))) = [] \/
  exists X,
    model_calls (trace (run false (Some uploaded))) = [X] /\
    index_len uploaded <> 0%nat /\
    index_len X = index_len uploaded /\
    columns X = reduced_columns /\
    parser_calls (trace (run false (Some uploaded))) =
      column uploaded "SMILES" /\
    forall c v, In c (cols X) -> In v (snd c) -> v = PInt 0 \/ v = PInt 1.
Proof.
  intros Hwf HS.
  destruct (upload_cases uploaded Hwf HS)
    as [[ss [Hget [HN Hrun]]] | [ss [v [rest [Hget [Hv [_ Hrun]]]]]]].
  - rewrite Hrun, !trace_prepend.
    rewrite !model_calls_app, model_calls_calls.
    rewrite !parser_calls_app, parser_calls_calls, parser_calls_ending.
    destruct (model_calls_ending uploaded (map encode ss))
      as [E | [Hn [Hkeys E]]]; rewrite E; [now left |].
    right. exists (selected (map encode ss) reduced_columns).
    split; [reflexivity | split; [exact Hn |]].
    split; [cbn [selected index_len]; now rewrite length_map |].
    split; [unfold columns; cbn [selected cols];
            rewrite map_map; apply map_id |].
    split.
    + unfold column. rewrite Hget. cbn. now rewrite app_nil_r.
    + intros c v' Hc Hv'. cbn [selected cols] in Hc.
      apply in_map_iff in Hc. destruct Hc as [k [<- Hk]].
      cbn [snd] in Hv'.
      apply Hkeys, in_map_iff in Hk. destruct Hk as [j [<- Hj]].
      apply in_seq in Hj.
      rewrite column_fp_frame in Hv' by lia.
      apply (column_of_rows_cell _ _ _ (Forall_length_encode ss)) in Hv';
        [| lia].
      destruct Hv' as [r [z [Hr [Hz ->]]]].
      apply in_map_iff in Hr. destruct Hr as [s [<- _]].
      apply encode_bits in Hz. destruct Hz as [-> | ->]; [now left | now right].
  - left. rewrite Hrun, trace_prepend. cbn [trace fst].
    rewrite !model_calls_app, model_calls_calls. reflexivity.
Qed.

Lemma nth_column_of_rows (fps : list (list Z)) (i j : nat) :
  (i < length fps)%nat -> (j < length (nth i fps []))%nat ->
  nth i (column_of_rows fps j) NA = PInt (nth j (nth i fps []) 0%Z).
Proof.
  intros Hi Hj. unfold column_of_rows.
  set (f := fun r : list Z => match nth_error r j with
                              | Some z => PInt z
                              | None => NA
                              end).
  rewrite (nth_indep _ NA (f [])) by now rewrite length_map.
  rewrite map_nth. unfold f.
  now rewrite (nth_error_nth' _ 0%Z Hj).
Qed.

(** X5: when the model is called in the run of a table of texts, the
    cell of its table at row i under the label of j is bit j of the
    fingerprint of the i-th SMILES: rows are neither reordered nor
    mixed, and each label selects the bit of its number. *)
Theorem model_input_is_fingerprint (uploaded : DataFrame) (ss : list string)
  (X : DataFrame) (i j : nat) :
  wf uploaded ->
  getitem uploaded "SMILES" = inr (map PStr ss) ->
  In (predict_call X) (trace (run false (Some uploaded))) ->
  (i < length ss)%nat ->
  In (str j) reduced_columns ->
  nth i (column X (str j)) NA = PInt (nth j (encode (nth i ss "")) 0%Z).
Proof.
  intros Hwf Hget HX Hi Hj. apply In_model_calls in HX.
  rewrite (run_strings uploaded ss Hwf Hget) in HX.
  rewrite !trace_prepend, !model_calls_app, model_calls_calls in HX.
  destruct (model_calls_ending uploaded (map encode ss))
    as [E | [Hn [Hkeys E]]]; rewrite E in HX; [destruct HX |].
  destruct HX as [<- | []].
  unfold selected. rewrite (column_selected _ _ _ _ Hj).
  pose proof (Hkeys _ Hj) as Hlab. apply in_map_iff in Hlab.
  destruct Hlab as [j' [Hj' Hin]]. apply str_inj in Hj'. subst j'.
  apply in_seq in Hin.
  rewrite column_fp_frame by lia.
  assert (Hrow : nth i (map encode ss) [] = encode (nth i ss "")).
  { rewrite (nth_indep _ [] (encode "")) by now rewrite length_map.
    apply map_nth. }
  rewrite nth_column_of_rows; rewrite ?Hrow, ?length_map, ?encode_length;
    try reflexivity; try exact Hi; try exact GetFingerprint_size; lia.
Qed.

(** X6: an uploaded table with a SMILES column and no row is
    previewed and reported as holding no valid molecule; neither the
    parser nor the model is called and nothing else is shown. *)
Theorem empty_upload_stops (uploaded : DataFrame) :
  wf uploaded -> In "SMILES" (columns uploaded) ->
  index_len uploaded = 0%nat ->
  run false (Some uploaded) =
  (preview uploaded ++ [no_valid_molecule], inr None).
Proof.
  intros Hwf HS H0.
  destruct (upload_cases uploaded Hwf HS)
    as [[ss [_ [HN Hrun]]] | [ss [v [rest [_ [_ [Hn _]]]]]]];
    [| contradiction].
  rewrite Hrun. unfold ending. rewrite H0 in *.
  destruct ss; [reflexivity | discriminate HN].
Qed.

(** X7: when the model raises on the table it is given, the run of a
    table of texts shows what it showed so far, then the message of
    the handler with that very exception, and ends without a result. *)
Theorem model_failure_reported (uploaded : DataFrame) (ss : list string)
  (X : DataFrame) (e : exn) :
  wf uploaded ->
  getitem uploaded "SMILES" = inr (map PStr ss) ->
  index_len uploaded <> 0%nat ->
  getitem_list (fp_frame (map encode ss)) reduced_columns = inr X ->
  model_predict X = inl e ->
  run false (Some uploaded) =
  prepend (preview uploaded)
    (prepend (calls (map PStr ss))
       ([st_success "Moléculas processadas com sucesso!";
         st_write "Realizando predições de bioatividade...";
         predict_call X;
         caught e], inr None)).
Proof.
  intros Hwf Hget Hn HX He. rewrite (run_strings uploaded ss Hwf Hget).
  unfold ending. apply Nat.eqb_neq in Hn. now rewrite Hn, HX, He.
Qed.

(** X8: when the model answers with a number of predictions that is
    not the number of rows, line 138 raises a [ValueError] with both
    numbers; the handler reports it and no result is shown. *)
Theorem wrong_length_answer_reported (uploaded : DataFrame)
  (ss : list string) (X : DataFrame) (preds : list float64) :
  wf uploaded ->
  getitem uploaded "SMILES" = inr (map PStr ss) ->
  index_len uploaded <> 0%nat ->
  getitem_list (fp_frame (map encode ss)) reduced_columns = inr X ->
  model_predict X = inr preds ->
  length preds <> index_len uploaded ->
  run false (Some uploaded) =
  prepend (preview uploaded)
    (prepend (calls (map PStr ss))
       ([st_success "Moléculas processadas com sucesso!";
         st_write "Realizando predições de bioatividade...";
         predict_call X;
         caught (ValueError (index_len uploaded) (length preds))],
        inr None)).
Proof.
  intros Hwf Hget Hn HX HP HL. rewrite (run_strings uploaded ss Hwf Hget).
  unfold ending. apply Nat.eqb_neq in Hn, HL. now rewrite Hn, HX, HP, HL.
Qed.

Lemma ending_error_or_result (df : DataFrame) (fps : list (list Z)) :
  errors (trace (ending model_predict reduced_columns df fps)) = [] \/
  (downloads (trace (ending model_predict reduced_columns df fps)) = [] /\
   outcome (ending model_predict reduced_columns df fps) = inr None).
Proof.
  unfold ending. destruct (index_len df =? 0)%nat; [now right |].
  destruct (getitem_list (fp_frame fps) reduced_columns) as [e | Xr];
    [now right |].
  destruct (model_predict Xr) as [e | preds]; [now right |].
  destruct (length preds =? index_len df)%nat; [now left | now right].
Qed.

(** X9: results or an error, never both: if the run of an uploaded
    table shows any error message, then it offers nothing for download
    and ends without a table of predictions. *)
Theorem error_means_no_result (uploaded : DataFrame) (msg : message) :
  wf uploaded ->
  In (st_error msg) (trace (run false (Some uploaded))) ->
  downloads (trace (run false (Some uploaded))) = [] /\
  outcome (run false (Some uploaded)) = inr None.
Proof.
  intros Hwf Hin.
  destruct (in_dec string_dec "SMILES" (columns uploaded)) as [HS | HS];
    [| now rewrite (run_missing_column uploaded HS)].
  destruct (upload_cases uploaded Hwf HS)
    as [[ss [_ [_ Hrun]]] | [ss [v [rest [_ [_ [_ Hrun]]]]]]].
  - rewrite Hrun in *. rewrite !outcome_prepend.
    rewrite !trace_prepend in *. rewrite !downloads_app, downloads_calls.
    apply In_errors in Hin.
    rewrite !errors_app, errors_calls in Hin. cbn [errors preview flat_map app] in Hin.
    destruct (ending_error_or_result uploaded (map encode ss))
      as [E | [E1 E2]].
    + rewrite E in Hin. destruct Hin.
    + now rewrite E1, E2.
  - rewrite Hrun, outcome_prepend, trace_prepend. cbn [trace fst outcome snd].
    now rewrite !downloads_app, downloads_calls.
Qed.

(** X10: the file offered for download holds the table shown on
    screen: whenever a run offers a file, it has shown a table with
    the columns SMILES and Predição_Bioatividade of which the file is
    the CSV. *)
Theorem shown_is_downloaded (use_example : bool)
  (uploaded_file : option DataFrame) (label : string) (data : csv_file)
  (file_name mime : string) :
  (forall df, uploaded_file = Some df -> wf df) ->
  In (st_download_button label data file_name mime)
     (trace (run use_example uploaded_file)) ->
  exists result,
    In (st_dataframe result) (trace (run use_example uploaded_file)) /\
    columns result = result_columns /\
    to_csv result = data.
Proof.
  intros Hwf Hin. pose proof (In_downloads _ _ _ _ _ Hin) as Hd.
  destruct (load_cases use_example uploaded_file Hwf) as [Hload [Hrun | Hrun]].
  - rewrite Hrun in Hd. cbn [trace fst] in Hd.
    fold (trace (load_input use_example uploaded_file)) in Hd.
    rewrite Hload in Hd. contradiction.
  - destruct Hrun as [df [_ [Hwfdf [HS Hrun]]]].
    rewrite Hrun, trace_prepend in *. rewrite downloads_app, Hload in Hd.
    destruct (attempt_cases df Hwfdf HS)
      as [[e [t [Ht [Hdt _]]]] | [[_ Ht] | Hok]].
    + rewrite Ht in Hd. cbn [trace fst app] in Hd.
      rewrite downloads_app, Hdt in Hd. destruct Hd.
    + rewrite Ht in Hd. destruct Hd.
    + destruct Hok as [ss [preds [Xr [_ [_ [_ [_ [_ Ht]]]]]]]].
      rewrite Ht, trace_prepend in *. cbn [trace fst app] in *.
      rewrite downloads_app, downloads_calls, downloads_shown in Hd.
      destruct Hd as [<- | []].
      exists (result_table df preds). split; [| now split].
      apply in_app_iff. right. apply in_app_iff. right.
      cbn [shown]. do 5 right. now left.
Qed.

(** X11: the predictions depend on an upload only through the
    fingerprints of its SMILES.  Two uploaded tables whose SMILES have
    the same fingerprints, row by row, lead to the same calls of the
    model, and when one gets predictions the other gets the same ones,
    whatever their other columns and whatever the texts. *)
Theorem predictions_depend_on_fingerprints (uploaded1 uploaded2 : DataFrame)
  (ss1 ss2 : list string) :
  wf uploaded1 -> wf uploaded2 ->
  getitem uploaded1 "SMILES" = inr (map PStr ss1) ->
  getitem uploaded2 "SMILES" = inr (map PStr ss2) ->
  map encode ss1 = map encode ss2 ->
  model_calls (trace (run false (Some uploaded1))) =
    model_calls (trace (run false (Some uploaded2))) /\
  forall valid_molecules1,
    outcome (run false (Some uploaded1)) = inr (Some valid_molecules1) ->
    exists valid_molecules2,
      outcome (run false (Some uploaded2)) = inr (Some valid_molecules2) /\
      column valid_molecules2 prediction_column =
        column valid_molecules1 prediction_column.
Proof.
  intros Hwf1 Hwf2 Hget1 Hget2 Hfps.
  assert (HN : index_len uploaded1 = index_len uploaded2).
  { rewrite <- (getitem_length _ _ _ (proj2 Hwf1) Hget1).
    rewrite <- (getitem_length _ _ _ (proj2 Hwf2) Hget2).
    rewrite !length_map. rewrite <- (length_map encode ss1), Hfps.
    apply length_map. }
  rewrite (run_strings uploaded1 ss1 Hwf1 Hget1).
  rewrite (run_strings uploaded2 ss2 Hwf2 Hget2).
  rewrite !trace_prepend, !outcome_prepend.
  rewrite !model_calls_app, !model_calls_calls.
  rewrite Hfps. unfold ending. rewrite HN.
  destruct (index_len uploaded2 =? 0)%nat;
    [split; [reflexivity | intros vm H; discriminate H] |].
  destruct (getitem_list (fp_frame (map encode ss2)) reduced_columns)
    as [e | Xr]; [split; [reflexivity | intros vm H; discriminate H] |].
  destruct (model_predict Xr) as [e | preds];
    [split; [reflexivity | intros vm H; discriminate H] |].
  destruct (length preds =? index_len uploaded2)%nat;
    [| split; [reflexivity | intros vm H; discriminate H]].
  split; [reflexivity |]. intros vm H. injection H as <-.
  eexists. split; [reflexivity |].
  unfold column. now rewrite !getitem_with_predictions.
Qed.

(** On a table of texts with rows, when the reduced columns are
    labels, the model is called once, on the selection. *)
Lemma model_called_on_selection (df : DataFrame) (ss : list string) :
  wf df ->
  getitem df "SMILES" = inr (map PStr ss) ->
  index_len df <> 0%nat ->
  (forall k, In k reduced_columns -> In k labels) ->
  model_calls (trace (run false (Some df))) =
  [selected (map encode ss) reduced_columns].
Proof.
  intros Hwf Hget Hn Hkeys. rewrite (run_strings df ss Hwf Hget).
  rewrite !trace_prepend, !model_calls_app, model_calls_calls.
  unfold ending. apply Nat.eqb_neq in Hn. rewrite Hn.
  rewrite (selection_of_labels _ _ Hkeys).
  fold (selected (map encode ss) reduced_columns).
  destruct (model_predict _) as [e | preds]; [reflexivity |].
  destruct (length preds =? index_len df)%nat; reflexivity.
Qed.



(** ** The other columns of an upload, step by step *)

(** When line 121 returns, every SMILES was a text and the table has
    their fingerprints. *)
Lemma fp_step_returns (df with_fp : DataFrame) :
  wf df ->
  outcome (fp_step df) = inr with_fp ->
  exists ss, getitem df "SMILES" = inr (map PStr ss) /\
             with_fp = with_fingerprints df (map encode ss).
Proof.
  intros Hwf H. unfold fingerprint in H.
  destruct (getitem df "SMILES") as [e | smiles] eqn:Hget;
    [discriminate H |].
  rewrite bind_lift_inr in H.
  destruct (series_split smiles) as [[ss ->] | [ss [v [rest [-> Hv]]]]].
  - exists ss. split; [reflexivity |].
    fold (fingerprint MolFromSmiles GetFingerprint df) in H.
    assert (E : fp_step df = (calls (map PStr ss),
                              inr (with_fingerprints df (map encode ss))))
      by exact (fingerprint_strings df ss (proj2 Hwf) Hget).
    unfold fingerprint in E. rewrite Hget, bind_lift_inr in E.
    rewrite E in H. now injection H as <-.
  - rewrite (apply_bad_cell ss v rest Hv) in H. discriminate H.
Qed.

Lemma columns_with_fingerprints (df : DataFrame) (fps : list (list Z)) :
  (In "Fingerprint" (columns df) ->
   columns (with_fingerprints df fps) = columns df) /\
  (~ In "Fingerprint" (columns df) ->
   columns (with_fingerprints df fps) = columns df ++ ["Fingerprint"]).
Proof.
  unfold columns, with_fingerprints. cbn [cols]. rewrite columns_set_col.
  split; intros H.
  - apply existsb_has_label in H. now rewrite H.
  - apply existsb_has_label_false in H. now rewrite H.
Qed.

Lemma columns_with_predictions (df : DataFrame) (preds : list float64) :
  (In prediction_column (columns df) ->
   columns (with_predictions df preds) = columns df) /\
  (~ In prediction_column (columns df) ->
   columns (with_predictions df preds) = columns df ++ [prediction_column]).
Proof.
  unfold columns, with_predictions. cbn [cols]. rewrite columns_set_col.
  split; intros H.
  - apply existsb_has_label in H. now rewrite H.
  - apply existsb_has_label_false in H. now rewrite H.
Qed.

Lemma Fingerprint_not_prediction : "Fingerprint" <> prediction_column.
Proof. discriminate. Qed.

(** C9, as the script has it.  Whenever line 121 returns on an
    uploaded table, the table it leaves has the rows of the upload,
    every column not named Fingerprint with the cells it had, and
    under Fingerprint the fingerprints of the SMILES, an uploaded
    column of that name being overwritten where it stands and a new
    one being added last; the filter of line 124 returns that table
    unchanged.  Whenever the run ends with predictions, the table it
    ends with has moreover under Predição_Bioatividade what the model
    answered, overwriting or added last alike, and every column named
    neither Fingerprint nor Predição_Bioatividade still has its
    cells. *)
Theorem other_columns_kept (uploaded : DataFrame) :
  wf uploaded ->
  (forall with_fp,
      outcome (fp_step uploaded) = inr with_fp ->
      exists ss,
        getitem uploaded "SMILES" = inr (map PStr ss) /\
        index_len with_fp = index_len uploaded /\
        (forall name, name <> "Fingerprint" ->
                      getitem with_fp name = getitem uploaded name) /\
        getitem with_fp "Fingerprint" = inr (map PList (map encode ss)) /\
        (In "Fingerprint" (columns uploaded) ->
         columns with_fp = columns uploaded) /\
        (~ In "Fingerprint" (columns uploaded) ->
         columns with_fp = columns uploaded ++ ["Fingerprint"]) /\
        filter_valid with_fp = ret with_fp) /\
  (forall valid_molecules,
      outcome (run false (Some uploaded)) = inr (Some valid_molecules) ->
      exists ss preds with_fp,
        getitem uploaded "SMILES" = inr (map PStr ss) /\
        outcome (fp_step uploaded) = inr with_fp /\
        model_predict (selected (map encode ss) reduced_columns) = inr preds /\
        index_len valid_molecules = index_len uploaded /\
        (forall name, name <> "Fingerprint" -> name <> prediction_column ->
                      getitem valid_molecules name = getitem uploaded name) /\
        getitem valid_molecules "Fingerprint" =
          inr (map PList (map encode ss)) /\
        getitem valid_molecules prediction_column = inr (map PFloat preds) /\
        (In prediction_column (columns with_fp) ->
         columns valid_molecules = columns with_fp) /\
        (~ In prediction_column (columns with_fp) ->
         columns valid_molecules = columns with_fp ++ [prediction_column])).
Proof.
  intros Hwf. split.
  - intros with_fp Hfp.
    destruct (fp_step_returns uploaded with_fp Hwf Hfp) as [ss [Hget ->]].
    exists ss. split; [exact Hget | split; [reflexivity |]].
    split; [intros name Hn; now apply getitem_with_fingerprints_other |].
    split; [apply getitem_with_fingerprints |].
    split; [apply columns_with_fingerprints |].
    split; [apply columns_with_fingerprints |].
    apply filter_valid_nothing; [exact (proj2 Hwf) |].
    rewrite <- (getitem_length _ _ _ (proj2 Hwf) Hget).
    now rewrite !length_map.
  - intros vm Hrun.
    destruct (in_dec string_dec "SMILES" (columns uploaded)) as [HS | HS];
      [| rewrite (run_missing_column uploaded HS) in Hrun; discriminate Hrun].
    destruct (upload_cases uploaded Hwf HS)
      as [[ss [Hget [_ E]]] | [ss [v [rest [_ [_ [_ E]]]]]]];
      rewrite E, ?outcome_prepend in Hrun; [| discriminate Hrun].
    unfold ending in Hrun.
    destruct (index_len uploaded =? 0)%nat; [discriminate Hrun |].
    destruct (getitem_list (fp_frame (map encode ss)) reduced_columns)
      as [e | Xr] eqn:EX; [discriminate Hrun |].
    apply getitem_list_selected in EX. destruct EX as [_ ->].
    destruct (model_predict _) as [e | preds] eqn:EP; [discriminate Hrun |].
    destruct (length preds =? index_len uploaded)%nat; [| discriminate Hrun].
    injection Hrun as <-.
    exists ss, preds, (with_fingerprints uploaded (map encode ss)).
    split; [exact Hget |].
    split; [now rewrite (fingerprint_strings uploaded ss (proj2 Hwf) Hget) |].
    split; [exact EP | split; [reflexivity |]].
    split.
    { intros name H1 H2.
      rewrite getitem_with_predictions_other by exact H2.
      now apply getitem_with_fingerprints_other. }
    split.
    { rewrite getitem_with_predictions_other
        by apply Fingerprint_not_prediction.
      apply getitem_with_fingerprints. }
    split; [apply getitem_with_predictions |].
    split; apply columns_with_predictions.
Qed.

End Pipeline.

(** ** Concrete runs *)


Lemma Toy_schema (k : string) : In k Toy.reduced_columns -> In k labels.
Proof.
  intros H. apply in_map_iff.
  destruct H as [<- | [<- | [<- | []]]];
    [exists 3%nat | exists 0%nat | exists 1023%nat];
    (split; [reflexivity | apply in_seq; lia]).
Qed.

Lemma not_label_1024 : ~ In "1024" labels.
Proof.
  intros H. apply in_map_iff in H. destruct H as [j [Hj Hin]].
  apply in_seq in Hin. change "1024" with (str 1024) in Hj.
  apply str_inj in Hj. lia.
Qed.

Lemma wf_one_column (name : string) (c : Series) :
  wf {| index_len := length c; cols := [(name, c)] |}.
Proof.
  split.
  - repeat constructor. intros [].
  - repeat constructor.
Qed.




Lemma schema_mismatch_caught_witness :
  let uploaded := {| index_len := 1; cols := [("SMILES", [PStr "CCO"])] |} in
  let reduced_columns := ["3"; "1024"] in
  let run := script Toy.MolFromSmiles Toy.GetFingerprint Toy.model_predict
                    reduced_columns false (Some uploaded) in
  wf uploaded /\
  getitem uploaded "SMILES" = inr (map PStr ["CCO"]) /\
  index_len uploaded <> 0%nat /\
  In "1024" reduced_columns /\ ~ In "1024" labels /\
  exists k',
    In k' reduced_columns /\ ~ In k' labels /\
    getitem_list
      (fp_frame (map (encode Toy.MolFromSmiles Toy.GetFingerprint) ["CCO"]))
      reduced_columns = inl (KeyError k') /\
    run =
      prepend (preview uploaded)
        (prepend (calls (map PStr ["CCO"]))
           ([st_success "Moléculas processadas com sucesso!";
             caught (KeyError k')], inr None)) /\
    (forall X, ~ In (predict_call X) (trace run)) /\
    downloads (trace run) = [].
Proof.
  intros uploaded reduced_columns run.
  assert (H1 : wf uploaded) by apply (wf_one_column "SMILES").
  assert (H2 : getitem uploaded "SMILES" = inr (map PStr ["CCO"]))
    by reflexivity.
  assert (H3 : index_len uploaded <> 0%nat) by discriminate.
  assert (H4 : In "1024" reduced_columns) by (right; now left).
  split; [exact H1 | split; [exact H2 | split; [exact H3 |]]].
  split; [exact H4 | split; [exact not_label_1024 |]].
  exact (schema_mismatch_caught Toy.Mol Toy.MolFromSmiles Toy.GetFingerprint
           Toy.model_predict reduced_columns Toy_GetFingerprint_size
           uploaded ["CCO"] "1024" H1 H2 H3 H4 not_label_1024).
Defined.

Lemma download_contract_witness :
  (forall df, @None DataFrame = Some df -> wf df) /\
  In (st_download_button "📥 Baixar Predições" Toy.example_result
                         "predicoes.csv" "text/csv")
     (trace (script Toy.MolFromSmiles Toy.GetFingerprint Toy.model_predict
                    Toy.reduced_columns true None)) /\
  exists molecules_df with_fp valid_molecules preds,
    outcome (load_input true None) = inr (Some molecules_df) /\
    outcome (fingerprint Toy.MolFromSmiles Toy.GetFingerprint molecules_df) =
      inr with_fp /\
    outcome (filter_valid with_fp) = inr valid_molecules /\
    csv_header Toy.example_result = ["SMILES"; prediction_column] /\
    length (csv_records Toy.example_result) = index_len valid_molecules /\
    length preds = index_len valid_molecules /\
    forall i, (i < index_len valid_molecules)%nat ->
      nth i (csv_records Toy.example_result) [] =
      [nth i (column valid_molecules "SMILES") NA; PFloat (nth i preds NaN)].
Proof.
  assert (H1 : forall df, @None DataFrame = Some df -> wf df)
    by (intros df H; discriminate H).
  assert (H2 : In (st_download_button "📥 Baixar Predições" Toy.example_result
                                      "predicoes.csv" "text/csv")
                  (trace (script Toy.MolFromSmiles Toy.GetFingerprint
                                 Toy.model_predict Toy.reduced_columns
                                 true None))).
  { vm_compute. do 16 right. left. reflexivity. }
  split; [exact H1 | split; [exact H2 |]].
  exact (download_contract Toy.Mol Toy.MolFromSmiles Toy.GetFingerprint
           Toy.model_predict Toy.reduced_columns Toy_GetFingerprint_size
           true None "📥 Baixar Predições" Toy.example_result
           "predicoes.csv" "text/csv" H1 H2).
Defined.

Lemma wf_upload_with_gap : wf Toy.upload_with_gap.
Proof.
  split.
  - repeat constructor; simpl; intros H; repeat destruct H as [H | H];
      try discriminate H; exact H.
  - repeat constructor.
Qed.

Lemma wf_upload_with_fingerprint : wf Toy.upload_with_fingerprint.
Proof.
  split.
  - repeat constructor; simpl; intros H; repeat destruct H as [H | H];
      try discriminate H; exact H.
  - repeat constructor.
Qed.



(** C9, as stated, fails on an upload that has a column named
    Fingerprint: the run succeeds and the table it ends with has the
    fingerprints of the script under that name, not the cells of the
    upload. *)
Lemma other_columns_kept_counterexample :
  wf Toy.upload_with_fingerprint /\
  In "Fingerprint" (columns Toy.upload_with_fingerprint) /\
  "Fingerprint" <> "SMILES" /\
  exists valid_molecules,
    outcome (Toy.run false (Some Toy.upload_with_fingerprint)) =
      inr (Some valid_molecules) /\
    getitem Toy.upload_with_fingerprint "Fingerprint" = inr [PStr "ECFP4"] /\
    getitem valid_molecules "Fingerprint" =
      inr [PList (encode Toy.MolFromSmiles Toy.GetFingerprint "CCO")] /\
    getitem valid_molecules "Fingerprint" <>
      getitem Toy.upload_with_fingerprint "Fingerprint".
Proof.
  split; [exact wf_upload_with_fingerprint |].
  split; [right; now left | split; [discriminate |]].
  eexists. split; [vm_compute; reflexivity |].
  split; [reflexivity | split; [vm_compute; reflexivity |]].
  vm_compute. intros H. discriminate H.
Qed.

Lemma wf_upload_with_both : wf Toy.upload_with_both.
Proof.
  split.
  - repeat constructor; simpl; intros H; repeat destruct H as [H | H];
      try discriminate H; exact H.
  - repeat constructor.
Qed.

Lemma other_columns_kept_witness :
  wf Toy.upload_with_both /\
  outcome (fingerprint Toy.MolFromSmiles Toy.GetFingerprint
             Toy.upload_with_both) =
    inr (with_fingerprints Toy.upload_with_both
           [encode Toy.MolFromSmiles Toy.GetFingerprint "CCO"]) /\
  outcome (Toy.run false (Some Toy.upload_with_both)) =
    inr (Some (with_predictions
                 (with_fingerprints Toy.upload_with_both
                    [encode Toy.MolFromSmiles Toy.GetFingerprint "CCO"])
                 [Finite 3 0])) /\
  (forall with_fp,
      outcome (fingerprint Toy.MolFromSmiles Toy.GetFingerprint
                 Toy.upload_with_both) = inr with_fp ->
      exists ss,
        getitem Toy.upload_with_both "SMILES" = inr (map PStr ss) /\
        index_len with_fp = index_len Toy.upload_with_both /\
        (forall name, name <> "Fingerprint" ->
                      getitem with_fp name =
                      getitem Toy.upload_with_both name) /\
        getitem with_fp "Fingerprint" =
          inr (map PList
                 (map (encode Toy.MolFromSmiles Toy.GetFingerprint) ss)) /\
        (In "Fingerprint" (columns Toy.upload_with_both) ->
         columns with_fp = columns Toy.upload_with_both) /\
        (~ In "Fingerprint" (columns Toy.upload_with_both) ->
         columns with_fp = columns Toy.upload_with_both ++ ["Fingerprint"]) /\
        filter_valid with_fp = ret with_fp) /\
  (forall valid_molecules,
      outcome (Toy.run false (Some Toy.upload_with_both)) =
        inr (Some valid_molecules) ->
      exists ss preds with_fp,
        getitem Toy.upload_with_both "SMILES" = inr (map PStr ss) /\
        outcome (fingerprint Toy.MolFromSmiles Toy.GetFingerprint
                   Toy.upload_with_both) = inr with_fp /\
        Toy.model_predict
          (selected (map (encode Toy.MolFromSmiles Toy.GetFingerprint) ss)
                    Toy.reduced_columns) = inr preds /\
        index_len valid_molecules = index_len Toy.upload_with_both /\
        (forall name, name <> "Fingerprint" -> name <> prediction_column ->
                      getitem valid_molecules name =
                      getitem Toy.upload_with_both name) /\
        getitem valid_molecules "Fingerprint" =
          inr (map PList
                 (map (encode Toy.MolFromSmiles Toy.GetFingerprint) ss)) /\
        getitem valid_molecules prediction_column = inr (map PFloat preds) /\
        (In prediction_column (columns with_fp) ->
         columns valid_molecules = columns with_fp) /\
        (~ In prediction_column (columns with_fp) ->
         columns valid_molecules = columns with_fp ++ [prediction_column])).
Proof.
  split; [exact wf_upload_with_both |].
  split; [vm_compute; reflexivity | split; [vm_compute; reflexivity |]].
  exact (other_columns_kept Toy.Mol Toy.MolFromSmiles Toy.GetFingerprint
           Toy.model_predict Toy.reduced_columns Toy_GetFingerprint_size
           Toy.upload_with_both wf_upload_with_both).
Defined.

(** ** The labels of the table of fingerprints *)

Lemma not_label_morgan (s : string) : ~ In ("morgan_fp_" ++ s)%string labels.
Proof.
  intros H. apply in_map_iff in H. destruct H as [j [Hj _]].
  apply (f_equal NilZero.uint_of_string) in Hj.
  unfold str in Hj. rewrite (NilZero.usu _ (to_uint_not_Nil j)) in Hj.
  simpl in Hj.
  destruct (NilEmpty.uint_of_string _); discriminate Hj.
Qed.

(** X13: the table of fingerprints built by lines 131-132 has as
    column labels exactly the decimal numbers 0 to 1023, in this
    order and nothing else; the names morgan_fp_j given at line 131
    are gone after line 132, so that a selection that asks for one of
    them raises a [KeyError]. *)
Theorem features_columns_are_numbers (vm X : DataFrame) (j : nat) :
  outcome (features vm) = inr X ->
  columns X = map str (seq 0 1024) /\
  (In (str j) (columns X) <-> (j < 1024)%nat) /\
  ~ In ("morgan_fp_" ++ str j)%string (columns X) /\
  forall keep, In ("morgan_fp_" ++ str j)%string keep ->
               exists k', getitem_list X keep = inl (KeyError k').
Proof.
  intros HX. pose proof (features_columns _ _ HX) as Hcols.
  assert (Hno : ~ In ("morgan_fp_" ++ str j)%string (columns X))
    by (rewrite Hcols; apply not_label_morgan).
  split; [exact Hcols | split; [| split; [exact Hno |]]].
  - rewrite Hcols. unfold labels. rewrite in_map_iff. split.
    + intros [j' [Hj' Hin]]. apply str_inj in Hj'. subst j'.
      apply in_seq in Hin. lia.
    + intros Hj. exists j. split; [reflexivity | apply in_seq; lia].
  - intros keep Hk.
    destruct (getitem_list_missing X keep _ Hk Hno) as [k' [E _]].
    now exists k'.
Qed.

Lemma features_columns_are_numbers_witness :
  outcome (features Toy.fingerprinted) = inr (fp_frame [repeat 1%Z 1024]) /\
  columns (fp_frame [repeat 1%Z 1024]) = map str (seq 0 1024) /\
  (In (str 3) (columns (fp_frame [repeat 1%Z 1024])) <-> (3 < 1024)%nat) /\
  ~ In ("morgan_fp_" ++ str 3)%string (columns (fp_frame [repeat 1%Z 1024])) /\
  forall keep, In ("morgan_fp_" ++ str 3)%string keep ->
    exists k', getitem_list (fp_frame [repeat 1%Z 1024]) keep =
               inl (KeyError k').
Proof.
  assert (H : outcome (features Toy.fingerprinted) =
              inr (fp_frame [repeat 1%Z 1024])) by (vm_compute; reflexivity).
  split; [exact H |].
  exact (features_columns_are_numbers Toy.fingerprinted
           (fp_frame [repeat 1%Z 1024]) 3 H).
Defined.

(** ** The reduced columns of a reference table *)

Section Reference.

Variable Mol : Type.
Variable MolFromSmiles : string -> option Mol.
Variable GetFingerprint : MorganGenerator -> Mol -> list bool.
Variable model_predict : DataFrame -> exn + list float64.

Hypothesis GetFingerprint_size :
  forall g mol, length (GetFingerprint g mol) = fpSize g.

Local Notation deployed reference_columns :=
  (script MolFromSmiles GetFingerprint model_predict
          (load_reduced_columns reference_columns)).

(** X14: with a reference table whose columns are labels of the
    fingerprints followed by one more column, the model is called on
    exactly these labels, in the order of the reference table: the
    last column is left out whatever its name, and is never looked up
    among the fingerprints. *)
Theorem reference_columns_select (feature_columns : list string)
  (target : string) (uploaded : DataFrame) (ss : list string) :
  (forall k, In k feature_columns -> In k labels) ->
  wf uploaded ->
  getitem uploaded "SMILES" = inr (map PStr ss) ->
  index_len uploaded <> 0%nat ->
  load_reduced_columns (feature_columns ++ [target]) = feature_columns /\
  model_calls (trace (deployed (feature_columns ++ [target])
                               false (Some uploaded))) =
  [selected (map (encode MolFromSmiles GetFingerprint) ss) feature_columns].
Proof.
  intros Hkeys Hwf Hget Hn.
  unfold load_reduced_columns. rewrite removelast_last.
  split; [reflexivity |].
  exact (model_called_on_selection Mol MolFromSmiles GetFingerprint
           model_predict feature_columns GetFingerprint_size uploaded ss
           Hwf Hget Hn Hkeys).
Qed.

(** X15: with a reference table of at most one column there is no
    reduced column at all; line 133 then raises nothing and the model
    is called on a table that has the rows of the upload and no
    column. *)
Theorem reference_without_features (reference_columns : list string)
  (uploaded : DataFrame) (ss : list string) :
  (length reference_columns <= 1)%nat ->
  wf uploaded ->
  getitem uploaded "SMILES" = inr (map PStr ss) ->
  index_len uploaded <> 0%nat ->
  load_reduced_columns reference_columns = [] /\
  model_calls (trace (deployed reference_columns false (Some uploaded))) =
  [{| index_len := index_len uploaded; cols := [] |}].
Proof.
  intros Hl Hwf Hget Hn.
  assert (Hnone : load_reduced_columns reference_columns = []).
  { destruct reference_columns as [| c [| c' l]]; try reflexivity.
    simpl in Hl. lia. }
  split; [exact Hnone |]. rewrite Hnone.
  rewrite (model_called_on_selection Mol MolFromSmiles GetFingerprint
             model_predict [] GetFingerprint_size uploaded ss
             Hwf Hget Hn) by (intros k []).
  unfold selected. cbn [map].
  rewrite length_map, <- (getitem_length _ _ _ (proj2 Hwf) Hget).
  now rewrite length_map.
Qed.

End Reference.

(** ** Concrete runs, continued *)

Lemma wf_one_molecule : wf Toy.one_molecule.
Proof. apply (wf_one_column "SMILES"). Qed.

Lemma wf_no_molecule : wf Toy.no_molecule.
Proof. apply (wf_one_column "SMILES"). Qed.

Lemma wf_no_molecule_either : wf Toy.no_molecule_either.
Proof.
  split.
  - repeat constructor; simpl; intros H; repeat destruct H as [H | H];
      try discriminate H; exact H.
  - repeat constructor.
Qed.

Lemma NaN_is_no_text (s : string) : PFloat NaN <> PStr s.
Proof. discriminate. Qed.

Lemma bad_cell_stops_run_witness :
  getitem Toy.upload_with_gap "SMILES" =
    inr (map PStr ["CCO"] ++ PFloat NaN :: []) /\
  (forall s, PFloat NaN <> PStr s) /\
  Toy.run false (Some Toy.upload_with_gap) =
    prepend (preview Toy.upload_with_gap)
      (calls (map PStr ["CCO"] ++ [PFloat NaN])
       ++ [caught (TypeError (PFloat NaN))], inr None) /\
  parser_calls (trace (Toy.run false (Some Toy.upload_with_gap))) =
    map PStr ["CCO"] ++ [PFloat NaN] /\
  model_calls (trace (Toy.run false (Some Toy.upload_with_gap))) = [] /\
  downloads (trace (Toy.run false (Some Toy.upload_with_gap))) = [].
Proof.
  split; [reflexivity | split; [exact NaN_is_no_text |]].
  exact (bad_cell_stops_run Toy.Mol Toy.MolFromSmiles Toy.GetFingerprint
           Toy.model_predict Toy.reduced_columns Toy.upload_with_gap
           ["CCO"] (PFloat NaN) [] eq_refl NaN_is_no_text).
Defined.

Lemma parser_once_per_row_witness :
  wf Toy.no_molecule_either /\
  getitem Toy.no_molecule_either "SMILES" = inr (map PStr ["c1"]) /\
  parser_calls (trace (Toy.run false (Some Toy.no_molecule_either))) =
    map PStr ["c1"].
Proof.
  split; [exact wf_no_molecule_either | split; [reflexivity |]].
  exact (parser_once_per_row Toy.Mol Toy.MolFromSmiles Toy.GetFingerprint
           Toy.model_predict Toy.reduced_columns Toy_GetFingerprint_size
           Toy.no_molecule_either ["c1"] wf_no_molecule_either eq_refl).
Defined.

Lemma In_SMILES_one_molecule : In "SMILES" (columns Toy.one_molecule).
Proof. now left. Qed.

Lemma model_called_at_most_once_witness :
  wf Toy.one_molecule /\ In "SMILES" (columns Toy.one_molecule) /\
  (model_calls (trace (Toy.run false (Some Toy.one_molecule))) = [] \/
   exists X,
     model_calls (trace (Toy.run false (Some Toy.one_molecule))) = [X] /\
     index_len Toy.one_molecule <> 0%nat /\
     index_len X = index_len Toy.one_molecule /\
     columns X = Toy.reduced_columns /\
     parser_calls (trace (Toy.run false (Some Toy.one_molecule))) =
       column Toy.one_molecule "SMILES" /\
     forall c v, In c (cols X) -> In v (snd c) -> v = PInt 0 \/ v = PInt 1).
Proof.
  split; [exact wf_one_molecule | split; [exact In_SMILES_one_molecule |]].
  exact (model_called_at_most_once Toy.Mol Toy.MolFromSmiles
           Toy.GetFingerprint Toy.model_predict Toy.reduced_columns
           Toy_GetFingerprint_size Toy.one_molecule
           wf_one_molecule In_SMILES_one_molecule).
Defined.

Lemma model_input_is_fingerprint_witness :
  wf Toy.one_molecule /\
  getitem Toy.one_molecule "SMILES" = inr (map PStr ["CCO"]) /\
  In (predict_call Toy.model_input)
     (trace (script Toy.MolFromSmiles Toy.GetFingerprint Toy.model_predict
                    Toy.reduced_columns false (Some Toy.one_molecule))) /\
  (0 < length ["CCO"])%nat /\
  In (str 0) Toy.reduced_columns /\
  nth 0 (column Toy.model_input (str 0)) NA =
  PInt (nth 0 (encode Toy.MolFromSmiles Toy.GetFingerprint (nth 0 ["CCO"] ""))
              0%Z).
Proof.
  assert (H3 : In (predict_call Toy.model_input)
     (trace (script Toy.MolFromSmiles Toy.GetFingerprint Toy.model_predict
                    Toy.reduced_columns false (Some Toy.one_molecule)))).
  { vm_compute. do 6 right. left. reflexivity. }
  assert (H4 : (0 < length ["CCO"])%nat) by (simpl; lia).
  assert (H5 : In (str 0) Toy.reduced_columns) by (right; left; reflexivity).
  split; [exact wf_one_molecule | split; [reflexivity |]].
  split; [exact H3 | split; [exact H4 | split; [exact H5 |]]].
  exact (model_input_is_fingerprint Toy.Mol Toy.MolFromSmiles
           Toy.GetFingerprint Toy.model_predict Toy.reduced_columns
           Toy_GetFingerprint_size Toy.one_molecule ["CCO"] Toy.model_input
           0 0 wf_one_molecule eq_refl H3 H4 H5).
Defined.

Lemma empty_upload_stops_witness :
  let uploaded := {| index_len := 0; cols := [("SMILES", [])] |} in
  wf uploaded /\ In "SMILES" (columns uploaded) /\
  index_len uploaded = 0%nat /\
  Toy.run false (Some uploaded) =
  (preview uploaded ++ [no_valid_molecule], inr None).
Proof.
  intros uploaded.
  assert (H1 : wf uploaded) by apply (wf_one_column "SMILES" []).
  assert (H2 : In "SMILES" (columns uploaded)) by now left.
  split; [exact H1 | split; [exact H2 | split; [reflexivity |]]].
  exact (empty_upload_stops Toy.Mol Toy.MolFromSmiles Toy.GetFingerprint
           Toy.model_predict Toy.reduced_columns Toy_GetFingerprint_size
           uploaded H1 H2 eq_refl).
Defined.

Lemma one_molecule_rows : index_len Toy.one_molecule <> 0%nat.
Proof. discriminate. Qed.

Lemma one_molecule_selection :
  getitem_list
    (fp_frame (map (encode Toy.MolFromSmiles Toy.GetFingerprint) ["CCO"]))
    Toy.reduced_columns =
  inr Toy.model_input.
Proof. apply selection_of_labels, Toy_schema. Qed.

Lemma model_failure_reported_witness :
  let e := ModelError "model not fitted" in
  wf Toy.one_molecule /\
  getitem Toy.one_molecule "SMILES" = inr (map PStr ["CCO"]) /\
  index_len Toy.one_molecule <> 0%nat /\
  getitem_list
    (fp_frame (map (encode Toy.MolFromSmiles Toy.GetFingerprint) ["CCO"]))
    Toy.reduced_columns = inr Toy.model_input /\
  Toy.failing_model Toy.model_input = inl e /\
  script Toy.MolFromSmiles Toy.GetFingerprint Toy.failing_model
         Toy.reduced_columns false (Some Toy.one_molecule) =
  prepend (preview Toy.one_molecule)
    (prepend (calls (map PStr ["CCO"]))
       ([st_success "Moléculas processadas com sucesso!";
         st_write "Realizando predições de bioatividade...";
         predict_call Toy.model_input;
         caught e], inr None)).
Proof.
  intros e.
  split; [exact wf_one_molecule | split; [reflexivity |]].
  split; [exact one_molecule_rows | split; [exact one_molecule_selection |]].
  split; [reflexivity |].
  exact (model_failure_reported Toy.Mol Toy.MolFromSmiles Toy.GetFingerprint
           Toy.failing_model Toy.reduced_columns Toy_GetFingerprint_size
           Toy.one_molecule ["CCO"] Toy.model_input e wf_one_molecule eq_refl
           one_molecule_rows one_molecule_selection eq_refl).
Defined.

Lemma silent_model_wrong_length :
  length (@nil float64) <> index_len Toy.one_molecule.
Proof. discriminate. Qed.

Lemma wrong_length_answer_reported_witness :
  wf Toy.one_molecule /\
  getitem Toy.one_molecule "SMILES" = inr (map PStr ["CCO"]) /\
  index_len Toy.one_molecule <> 0%nat /\
  getitem_list
    (fp_frame (map (encode Toy.MolFromSmiles Toy.GetFingerprint) ["CCO"]))
    Toy.reduced_columns = inr Toy.model_input /\
  Toy.silent_model Toy.model_input = inr [] /\
  length (@nil float64) <> index_len Toy.one_molecule /\
  script Toy.MolFromSmiles Toy.GetFingerprint Toy.silent_model
         Toy.reduced_columns false (Some Toy.one_molecule) =
  prepend (preview Toy.one_molecule)
    (prepend (calls (map PStr ["CCO"]))
       ([st_success "Moléculas processadas com sucesso!";
         st_write "Realizando predições de bioatividade...";
         predict_call Toy.model_input;
         caught (ValueError (index_len Toy.one_molecule)
                            (length (@nil float64)))],
        inr None)).
Proof.
  split; [exact wf_one_molecule | split; [reflexivity |]].
  split; [exact one_molecule_rows | split; [exact one_molecule_selection |]].
  split; [reflexivity | split; [exact silent_model_wrong_length |]].
  exact (wrong_length_answer_reported Toy.Mol Toy.MolFromSmiles
           Toy.GetFingerprint Toy.silent_model Toy.reduced_columns
           Toy_GetFingerprint_size Toy.one_molecule ["CCO"] Toy.model_input []
           wf_one_molecule eq_refl one_molecule_rows one_molecule_selection
           eq_refl silent_model_wrong_length).
Defined.

Lemma error_means_no_result_witness :
  let msg := Formatted "Ocorreu um erro: " (TypeError (PFloat NaN)) in
  wf Toy.upload_with_gap /\
  In (st_error msg)
     (trace (script Toy.MolFromSmiles Toy.GetFingerprint Toy.model_predict
                    Toy.reduced_columns false (Some Toy.upload_with_gap))) /\
  downloads
    (trace (script Toy.MolFromSmiles Toy.GetFingerprint Toy.model_predict
                   Toy.reduced_columns false (Some Toy.upload_with_gap)))
    = [] /\
  outcome (script Toy.MolFromSmiles Toy.GetFingerprint Toy.model_predict
                  Toy.reduced_columns false (Some Toy.upload_with_gap))
    = inr None.
Proof.
  intros msg.
  assert (H2 : In (st_error msg)
     (trace (script Toy.MolFromSmiles Toy.GetFingerprint Toy.model_predict
                    Toy.reduced_columns false (Some Toy.upload_with_gap)))).
  { vm_compute. do 5 right. left. reflexivity. }
  split; [exact wf_upload_with_gap | split; [exact H2 |]].
  exact (error_means_no_result Toy.Mol Toy.MolFromSmiles Toy.GetFingerprint
           Toy.model_predict Toy.reduced_columns Toy_GetFingerprint_size
           Toy.upload_with_gap msg wf_upload_with_gap H2).
Defined.

Lemma no_upload_is_wf (df : DataFrame) : @None DataFrame = Some df -> wf df.
Proof. intros H. discriminate H. Qed.

Lemma shown_is_downloaded_witness :
  (forall df, @None DataFrame = Some df -> wf df) /\
  In (st_download_button "📥 Baixar Predições" Toy.example_result
                         "predicoes.csv" "text/csv")
     (trace (script Toy.MolFromSmiles Toy.GetFingerprint Toy.model_predict
                    Toy.reduced_columns true None)) /\
  exists result,
    In (st_dataframe result)
       (trace (script Toy.MolFromSmiles Toy.GetFingerprint Toy.model_predict
                      Toy.reduced_columns true None)) /\
    columns result = result_columns /\
    to_csv result = Toy.example_result.
Proof.
  assert (H2 : In (st_download_button "📥 Baixar Predições" Toy.example_result
                                      "predicoes.csv" "text/csv")
                  (trace (script Toy.MolFromSmiles Toy.GetFingerprint
                                 Toy.model_predict Toy.reduced_columns
                                 true None))).
  { vm_compute. do 16 right. left. reflexivity. }
  split; [exact no_upload_is_wf | split; [exact H2 |]].
  exact (shown_is_downloaded Toy.Mol Toy.MolFromSmiles Toy.GetFingerprint
           Toy.model_predict Toy.reduced_columns Toy_GetFingerprint_size
           true None "📥 Baixar Predições" Toy.example_result
           "predicoes.csv" "text/csv" no_upload_is_wf H2).
Defined.

Lemma same_fingerprints :
  map (encode Toy.MolFromSmiles Toy.GetFingerprint) ["zz"] =
  map (encode Toy.MolFromSmiles Toy.GetFingerprint) ["c1"].
Proof. reflexivity. Qed.

Lemma predictions_depend_on_fingerprints_witness :
  wf Toy.no_molecule /\ wf Toy.no_molecule_either /\
  getitem Toy.no_molecule "SMILES" = inr (map PStr ["zz"]) /\
  getitem Toy.no_molecule_either "SMILES" = inr (map PStr ["c1"]) /\
  map (encode Toy.MolFromSmiles Toy.GetFingerprint) ["zz"] =
    map (encode Toy.MolFromSmiles Toy.GetFingerprint) ["c1"] /\
  model_calls (trace (Toy.run false (Some Toy.no_molecule))) =
    model_calls (trace (Toy.run false (Some Toy.no_molecule_either))) /\
  forall valid_molecules1,
    outcome (Toy.run false (Some Toy.no_molecule)) =
      inr (Some valid_molecules1) ->
    exists valid_molecules2,
      outcome (Toy.run false (Some Toy.no_molecule_either)) =
        inr (Some valid_molecules2) /\
      column valid_molecules2 prediction_column =
        column valid_molecules1 prediction_column.
Proof.
  split; [exact wf_no_molecule | split; [exact wf_no_molecule_either |]].
  split; [reflexivity | split; [reflexivity |]].
  split; [exact same_fingerprints |].
  exact (predictions_depend_on_fingerprints Toy.Mol Toy.MolFromSmiles
           Toy.GetFingerprint Toy.model_predict Toy.reduced_columns
           Toy_GetFingerprint_size Toy.no_molecule Toy.no_molecule_either
           ["zz"] ["c1"] wf_no_molecule wf_no_molecule_either
           eq_refl eq_refl same_fingerprints).
Defined.


Lemma two_labels (k : string) : In k ["3"; "0"] -> In k labels.
Proof.
  intros H. apply Toy_schema.
  destruct H as [<- | [<- | []]]; [now left | right; now left].
Qed.

Lemma reference_columns_select_witness :
  (forall k, In k ["3"; "0"] -> In k labels) /\
  wf Toy.one_molecule /\
  getitem Toy.one_molecule "SMILES" = inr (map PStr ["CCO"]) /\
  index_len Toy.one_molecule <> 0%nat /\
  load_reduced_columns (["3"; "0"] ++ ["pIC50"]) = ["3"; "0"] /\
  model_calls
    (trace (script Toy.MolFromSmiles Toy.GetFingerprint Toy.model_predict
                   (load_reduced_columns (["3"; "0"] ++ ["pIC50"]))
                   false (Some Toy.one_molecule))) =
  [selected (map (encode Toy.MolFromSmiles Toy.GetFingerprint) ["CCO"])
            ["3"; "0"]].
Proof.
  split; [exact two_labels | split; [exact wf_one_molecule |]].
  split; [reflexivity | split; [exact one_molecule_rows |]].
  exact (reference_columns_select Toy.Mol Toy.MolFromSmiles Toy.GetFingerprint
           Toy.model_predict Toy_GetFingerprint_size ["3"; "0"] "pIC50"
           Toy.one_molecule ["CCO"] two_labels wf_one_molecule eq_refl
           one_molecule_rows).
Defined.

Lemma one_reference_column : (length ["pIC50"] <= 1)%nat.
Proof. simpl. lia. Qed.

Lemma reference_without_features_witness :
  (length ["pIC50"] <= 1)%nat /\
  wf Toy.one_molecule /\
  getitem Toy.one_molecule "SMILES" = inr (map PStr ["CCO"]) /\
  index_len Toy.one_molecule <> 0%nat /\
  load_reduced_columns ["pIC50"] = [] /\
  model_calls
    (trace (script Toy.MolFromSmiles Toy.GetFingerprint Toy.model_predict
                   (load_reduced_columns ["pIC50"])
                   false (Some Toy.one_molecule))) =
  [{| index_len := index_len Toy.one_molecule; cols := [] |}].
Proof.
  split; [exact one_reference_column | split; [exact wf_one_molecule |]].
  split; [reflexivity | split; [exact one_molecule_rows |]].
  exact (reference_without_features Toy.Mol Toy.MolFromSmiles
           Toy.GetFingerprint Toy.model_predict Toy_GetFingerprint_size
           ["pIC50"] Toy.one_molecule ["CCO"] one_reference_column
           wf_one_molecule eq_refl one_molecule_rows).
Defined.
